(** * Portfolio backend: the path operations of [main.py]

    A shallow embedding of the request handlers of the portfolio backend
    ([read_json_file], [get_profile], [list_diary], [get_diary_item],
    [test_database], [read_root]), of the routes and response models their
    decorators declare, and the properties the specification states about
    them.

    The handlers are Python functions that read two local files, may raise
    exceptions and return JSON-like Python values.  They are modelled as
    computations in a small state-and-exception monad over a [world] that
    holds the file system, the process environment and the optional
    [database] module. *)

From Stdlib Require Import ZArith Floats.SpecFloat.
From stdpp Require Import gmap strings list pretty.

Open Scope string_scope.
Open Scope Z_scope.

(** ** Python values

    What [json.load] produces: [None], [bool], [int], [float], [str],
    [list] and [dict] with string keys.  A [dict] keeps its keys in
    insertion order and is an association list here; a [string] is the
    sequence of characters of a Python [str]. *)

#[warnings="-register-all"]
Inductive json : Type :=
  | JNull
  | JBool (b : bool)
  | JInt (n : Z)
  | JFloat (f : spec_float)
  | JStr (s : string)
  | JArr (items : list json)
  | JObj (fields : list (string * json)).

(** [d.get(key)] / [d[key]] / [key in d] on the fields of a dict. *)
Fixpoint dict_get (key : string) (fields : list (string * json)) : option json :=
  match fields with
  | [] => None
  | (k, v) :: rest => if String.eqb k key then Some v else dict_get key rest
  end.

(** [d[key] = v]: the value of an existing key is replaced where it stands,
    a new key goes last. *)
Fixpoint dict_set (key : string) (v : json) (fields : list (string * json))
  : list (string * json) :=
  match fields with
  | [] => [(key, v)]
  | (k, v0) :: rest =>
      if String.eqb k key then (k, v) :: rest else (k, v0) :: dict_set key v rest
  end.

(** [x[key]] when [x] is a dict. *)
Definition field (key : string) (x : json) : option json :=
  match x with
  | JObj fields => dict_get key fields
  | _ => None
  end.

(** [type(x).__name__], as it appears in the interpreter's messages. *)
Definition type_name (x : json) : string :=
  match x with
  | JNull => "NoneType"
  | JBool _ => "bool"
  | JInt _ => "int"
  | JFloat _ => "float"
  | JStr _ => "str"
  | JArr _ => "list"
  | JObj _ => "dict"
  end.

Definition is_dict (x : json) : bool :=
  match x with JObj _ => true | _ => false end.

Definition is_list (x : json) : bool :=
  match x with JArr _ => true | _ => false end.

Definition is_str (x : json) : bool :=
  match x with JStr _ => true | _ => false end.

(** [x == s] for a value [x] and a [str] [s]: only an equal [str] is equal. *)
Definition eq_str (x : json) (s : string) : bool :=
  match x with JStr t => String.eqb t s | _ => false end.

(** ** Exceptions

    Every constructor stands for a class together with its subclasses, the
    way an [except] clause matches.  [Exception_ cls msg] is any other
    subclass of [Exception], with its class name and its [str()]. *)

Inductive exn : Type :=
  | FileNotFoundError (msg : string)
  | ImportError (msg : string)
  | HTTPException (status_code : Z) (detail : string)
  | Exception_ (cls : string) (msg : string).

Definition is_FileNotFoundError (e : exn) : bool :=
  match e with FileNotFoundError _ => true | _ => false end.

Definition is_ImportError (e : exn) : bool :=
  match e with ImportError _ => true | _ => false end.

Definition is_HTTPException (e : exn) : bool :=
  match e with HTTPException _ _ => true | _ => false end.

Definition AttributeError (obj : json) (attr : string) : exn :=
  Exception_ "AttributeError"
    ("'" ++ type_name obj ++ "' object has no attribute '" ++ attr ++ "'").

Definition TypeError_not_iterable (obj : json) : exn :=
  Exception_ "TypeError" ("'" ++ type_name obj ++ "' object is not iterable").

(** ** The world the handlers run in *)

(** The [db] object of the optional [database] module: its [name]
    attribute when it has one, and what [db.list_collection_names()]
    does. *)
Record Database : Type := {
  db_name : option string;
  list_collection_names : exn + list string
}.

Record world : Type := {
  (** regular files by path, with their text *)
  files : gmap string string;
  (** [os.environ] *)
  environ : gmap string string;
  (** [from database import db]: the import raises, or binds [db] to
      [None] or to a database object *)
  import_db : exn + option Database
}.

Definition set_files (f : gmap string string -> gmap string string) (w : world) : world :=
  {| files := f (files w); environ := environ w; import_db := import_db w |}.

(** An edit made outside the service: the file at [path] gets a new text,
    or is removed. *)
Definition edit_file (path : string) (content : option string) (w : world) : world :=
  set_files (match content with
             | Some text => <[path := text]>
             | None => delete path
             end) w.

(** ** Computations: state passing with exceptions *)

Inductive outcome (A : Type) : Type :=
  | Return (a : A)
  | Raise (e : exn).
Arguments Return {A} a.
Arguments Raise {A} e.

Definition M (A : Type) : Type := world -> outcome A * world.

Definition ret {A} (a : A) : M A := fun w => (Return a, w).

Definition raise {A} (e : exn) : M A := fun w => (Raise e, w).

Definition bind {A B} (m : M A) (k : A -> M B) : M B :=
  fun w =>
    match m w with
    | (Return a, w') => k a w'
    | (Raise e, w') => (Raise e, w')
    end.

(** [try: body except ...: handler]: the handler receives the exception
    and chooses by its class, in the order of the [except] clauses. *)
Definition try_except {A} (body : M A) (handler : exn -> M A) : M A :=
  fun w =>
    match body w with
    | (Return a, w') => (Return a, w')
    | (Raise e, w') => handler e w'
    end.

Definition lift {A} (r : exn + A) : M A :=
  match r with
  | inl e => raise e
  | inr a => ret a
  end.

(** A computation that leaves the world as it found it, whatever it
    returns or raises. *)
Definition read_only {A} (m : M A) : Prop := forall w, (m w).2 = w.

(** A computation that raises nothing but [HTTPException]s. *)
Definition raises_only_HTTPException {A} (m : M A) : Prop :=
  forall w e, (m w).1 = Raise e -> is_HTTPException e = true.

(** A computation whose outcome is the same in any two worlds that [R]
    relates. *)
Definition determined_by {A} (R : world -> world -> Prop) (m : M A) : Prop :=
  forall w1 w2, R w1 w2 -> (m w1).1 = (m w2).1.

(** Two worlds with the same file, or the same absence, at [path]. *)
Definition same_file (path : string) (w1 w2 : world) : Prop :=
  files w1 !! path = files w2 !! path.

(** Two worlds with the same [database] module and the same two settings
    in the environment. *)
Definition same_database_settings (w1 w2 : world) : Prop :=
  import_db w1 = import_db w2
  /\ environ w1 !! "DATABASE_URL" = environ w2 !! "DATABASE_URL"
  /\ environ w1 !! "DATABASE_NAME" = environ w2 !! "DATABASE_NAME".

Declare Scope py_scope.
Delimit Scope py_scope with py.
Notation "x <- m ;; k" := (bind m (fun x => k))
  (at level 100, m at next level, right associativity) : py_scope.
Open Scope py_scope.

(** *** Primitives *)

(** [os.path.exists(path)] *)
Definition os_path_exists (path : string) : M bool :=
  fun w => (Return (bool_decide (is_Some (files w !! path))), w).

(** [open(path, mode, encoding="utf-8")], as far as its effect on the
    files goes: ["r"] reads an existing file and fails on a missing one,
    ["w"] creates or truncates the file.  The result is the text the
    stream will deliver. *)
Definition open_ (path mode : string) : M string :=
  fun w =>
    if String.eqb mode "r" then
      match files w !! path with
      | Some text => (Return text, w)
      | None =>
          (Raise (FileNotFoundError
                    ("[Errno 2] No such file or directory: '" ++ path ++ "'")), w)
      end
    else if String.eqb mode "w" then
      (Return "", set_files (<[path := ""]>) w)
    else
      (Raise (Exception_ "ValueError" ("invalid mode: '" ++ mode ++ "'")), w).

(** [os.getenv(name)] *)
Definition os_getenv (name : string) : M (option string) :=
  fun w => (Return (environ w !! name), w).

(** Truth value of [os.getenv(name)]: set and not empty. *)
Definition truthy (v : option string) : bool :=
  match v with
  | Some s => negb (String.eqb s "")
  | None => false
  end.

(** [os.path.join(a, b)] on POSIX paths. *)
Definition os_path_join (a b : string) : string :=
  if String.prefix "/" b then b
  else if String.eqb a "" then b
  else if String.eqb (String.substring (String.length a - 1)%nat 1%nat a) "/" then a ++ b
  else a ++ "/" ++ b.

(** ** The documented shapes

    The [BaseModel] classes of [main.py], read as predicates on parsed
    values: a required field must be present with the declared type, an
    [Optional] one may be missing or [None]. *)

Definition required (p : json -> bool) (key : string) (fields : list (string * json)) : bool :=
  match dict_get key fields with
  | Some v => p v
  | None => false
  end.

Definition optional (p : json -> bool) (key : string) (fields : list (string * json)) : bool :=
  match dict_get key fields with
  | Some JNull | None => true
  | Some v => p v
  end.

Definition list_of (p : json -> bool) (x : json) : bool :=
  match x with
  | JArr items => forallb p items
  | _ => false
  end.

Definition SocialLink (x : json) : bool :=
  match x with
  | JObj fields => required is_str "label" fields && required is_str "url" fields
  | _ => false
  end.

Definition Profile (x : json) : bool :=
  match x with
  | JObj fields =>
      required is_str "name" fields
      && required is_str "photo_url" fields
      && optional is_str "tagline" fields
      && required (list_of SocialLink) "socials" fields
  | _ => false
  end.

Definition DiaryItem (x : json) : bool :=
  match x with
  | JObj fields =>
      required is_str "id" fields
      && required is_str "title" fields
      && required is_str "date" fields
      && optional is_str "summary" fields
      && optional is_str "content" fields
  | _ => false
  end.

(** *** Serialisation through a model

    What the framework sends for a value that validated against a model:
    the declared fields in their declared order, each with the value's
    own entry, [None] for an optional field the value leaves out; keys
    the model does not declare are not sent. *)

Definition declared (key : string) (fields : list (string * json)) : string * json :=
  (key, default JNull (dict_get key fields)).

Definition dump_SocialLink (x : json) : json :=
  match x with
  | JObj fields => JObj [declared "label" fields; declared "url" fields]
  | _ => x
  end.

Definition dump_Profile (x : json) : json :=
  match x with
  | JObj fields =>
      JObj [ declared "name" fields;
             declared "photo_url" fields;
             declared "tagline" fields;
             ("socials",
              match dict_get "socials" fields with
              | Some (JArr socials) => JArr (map dump_SocialLink socials)
              | _ => JNull
              end) ]
  | _ => x
  end.

Definition dump_DiaryItem (x : json) : json :=
  match x with
  | JObj fields =>
      JObj [ declared "id" fields;
             declared "title" fields;
             declared "date" fields;
             declared "summary" fields;
             declared "content" fields ]
  | _ => x
  end.

(** [response_model=Profile], [response_model=DiaryItem] and
    [response_model=List[DiaryItem]] on a returned value: the serialised
    value when it has the shape, nothing when it does not (a field
    declared [str] takes a [str] only, a model takes a dict, a [List] a
    list). *)
Definition as_Profile (x : json) : option json :=
  if Profile x then Some (dump_Profile x) else None.

Definition as_DiaryItem (x : json) : option json :=
  if DiaryItem x then Some (dump_DiaryItem x) else None.

Definition as_List_DiaryItem (x : json) : option json :=
  if list_of DiaryItem x
  then match x with
       | JArr items => Some (JArr (map dump_DiaryItem items))
       | _ => None
       end
  else None.

(** An item whose ["id"] field equals the requested id. *)
Definition has_id (item_id : string) (item : json) : bool :=
  match item with
  | JObj fields => required (fun v => eq_str v item_id) "id" fields
  | _ => false
  end.

(** [needle in text] *)
Fixpoint mentions (needle text : string) : bool :=
  String.prefix needle text
  || match text with
     | EmptyString => false
     | String _ rest => mentions needle rest
     end.

(** ** Sample data

    The scenarios of the specification, as a deployment in [/app]. *)

Definition dq : string := String (Ascii.ascii_of_nat 34) EmptyString.

(** A JSON string literal. *)
Definition lit (s : string) : string := dq ++ s ++ dq.

Definition ada_text : string :=
  "{" ++ lit "name" ++ ":" ++ lit "Ada" ++ "," ++ lit "photo_url" ++ ":" ++ lit "a.png"
  ++ "," ++ lit "socials" ++ ":[{" ++ lit "label" ++ ":" ++ lit "site" ++ ","
  ++ lit "url" ++ ":" ++ lit "http://x" ++ "}]}".

Definition ada : json :=
  JObj [ ("name", JStr "Ada"); ("photo_url", JStr "a.png");
         ("socials", JArr [JObj [("label", JStr "site"); ("url", JStr "http://x")]]) ].

Definition day1_text : string :=
  "[{" ++ lit "id" ++ ":" ++ lit "1" ++ "," ++ lit "title" ++ ":" ++ lit "Day1" ++ ","
  ++ lit "date" ++ ":" ++ lit "2024-01-01" ++ "}]".

Definition day1 : json :=
  JObj [("id", JStr "1"); ("title", JStr "Day1"); ("date", JStr "2024-01-01")].

Definition wrapped_text : string := "{" ++ lit "items" ++ ":" ++ day1_text ++ "}".

(** [json.load] on the sample texts; anything else is taken for
    malformed. *)
Definition sample_json_load (text : string) : exn + json :=
  if String.eqb text ada_text then inr ada
  else if String.eqb text day1_text then inr (JArr [day1])
  else if String.eqb text wrapped_text then inr (JObj [("items", JArr [day1])])
  else if String.eqb text "7" then inr (JInt 7)
  else if String.eqb text "[7]" then inr (JArr [JInt 7])
  else inl (Exception_ "JSONDecodeError" "Expecting value: line 1 column 1 (char 0)").

Definition sample_str_HTTPException (status_code : Z) (detail : string) : string :=
  pretty status_code ++ ": " ++ detail.

Definition world_of (profile diary : option string) : world :=
  {| files :=
       match profile with Some t => {["/app/profile.json" := t]} | None => ∅ end
       ∪ match diary with Some t => {["/app/diary.json" := t]} | None => ∅ end;
     environ := ∅;
     import_db := inl (ImportError "No module named 'database'") |}.

Definition world_with_database (listing : exn + list string) : world :=
  {| files := ∅;
     environ := {["DATABASE_URL" := "mongodb://localhost:27017"]};
     import_db :=
       inr (Some {| db_name := Some "portfolio"; list_collection_names := listing |}) |}.

Definition twelve_names : list string :=
  ["c01"; "c02"; "c03"; "c04"; "c05"; "c06"; "c07"; "c08"; "c09"; "c10"; "c11"; "c12"].

(** Further sample data: a second entry, and diary files of unusual
    content. *)

Definition day2 : json :=
  JObj [("id", JStr "2"); ("title", JStr "Day2"); ("date", JStr "2024-01-02")].

Definition two_days_text : string :=
  "[{" ++ lit "id" ++ ":" ++ lit "1" ++ "," ++ lit "title" ++ ":" ++ lit "Day1" ++ ","
  ++ lit "date" ++ ":" ++ lit "2024-01-01" ++ "},{" ++ lit "id" ++ ":" ++ lit "2" ++ ","
  ++ lit "title" ++ ":" ++ lit "Day2" ++ "," ++ lit "date" ++ ":" ++ lit "2024-01-02"
  ++ "}]".

Definition note_first_text : string :=
  "[" ++ lit "note" ++ ",{" ++ lit "id" ++ ":" ++ lit "1" ++ "}]".

Definition items_5_text : string := "{" ++ lit "items" ++ ":5}".

(** The two entries as the [DiaryItem] model serialises them, and the
    profile as the [Profile] model does. *)
Definition day1_served : json :=
  JObj [ ("id", JStr "1"); ("title", JStr "Day1"); ("date", JStr "2024-01-01");
         ("summary", JNull); ("content", JNull) ].

Definition day2_served : json :=
  JObj [ ("id", JStr "2"); ("title", JStr "Day2"); ("date", JStr "2024-01-02");
         ("summary", JNull); ("content", JNull) ].

Definition ada_served : json :=
  JObj [ ("name", JStr "Ada"); ("photo_url", JStr "a.png"); ("tagline", JNull);
         ("socials", JArr [JObj [("label", JStr "site"); ("url", JStr "http://x")]]) ].

(** [json.load] on these texts as well. *)
Definition edge_json_load (text : string) : exn + json :=
  if String.eqb text two_days_text then inr (JArr [day1; day2])
  else if String.eqb text note_first_text
  then inr (JArr [JStr "note"; JObj [("id", JStr "1")]])
  else if String.eqb text items_5_text then inr (JObj [("items", JInt 5)])
  else sample_json_load text.

Definition long_message : string :=
  "Authentication failed: the user is not allowed to list collections on portfolio".

(** ** The application *)

Section App.

(** The directory of [main.py]:
    [os.path.dirname(os.path.abspath(__file__))]. *)
Variable BACKEND_DIR : string.

(** [json.load] on the text of a file: the parsed value, or the
    exception the parser raises. *)
Variable json_load : string -> exn + json.

(** [str(e)] of the framework's [HTTPException]. *)
Variable HTTPException_str : Z -> string -> string.

(** [str(e)] *)
Definition str (e : exn) : string :=
  match e with
  | FileNotFoundError msg => msg
  | ImportError msg => msg
  | HTTPException status_code detail => HTTPException_str status_code detail
  | Exception_ _ msg => msg
  end.

Definition PROFILE_PATH : string := os_path_join BACKEND_DIR "profile.json".
Definition DIARY_PATH : string := os_path_join BACKEND_DIR "diary.json".

Definition read_json_file (path : string) : M json :=
  found <- os_path_exists path ;;
  if negb found then raise (FileNotFoundError ("File not found: " ++ path))
  else
    f <- open_ path "r" ;;
    lift (json_load f).

(** *** Routes *)

Definition read_root : M json :=
  ret (JObj [("message", JStr "Portfolio Backend Running")]).

(** The body of the [try] of [get_profile]. *)
Definition get_profile_try : M json :=
  data <- read_json_file PROFILE_PATH ;;
  ret data.

Definition get_profile : M json :=
  try_except get_profile_try
    (fun e =>
       if is_FileNotFoundError e then
         raise (HTTPException 404 "profile.json not found. Add it to the backend root.")
       else raise (HTTPException 500 (str e))).

(** The body of the [try] of [list_diary]. *)
Definition list_diary_try : M json :=
  data <- read_json_file DIARY_PATH ;;
  match data with
  | JObj fields =>
      match dict_get "items" fields with
      | Some items => ret items
      | None => ret (JArr [])
      end
  | JArr _ => ret data
  | _ => ret (JArr [])
  end.

Definition list_diary : M json :=
  try_except list_diary_try
    (fun e =>
       if is_FileNotFoundError e then ret (JArr [])
       else raise (HTTPException 500 (str e))).

(** [iter(x)] run to the end: the elements of a list, the keys of a
    dict, the characters of a str; anything else is not iterable. *)
Definition iterate (x : json) : exn + list json :=
  match x with
  | JArr items => inr items
  | JObj fields => inr (map (fun kv => JStr (fst kv)) fields)
  | JStr s => inr (map (fun c => JStr (String c "")) (String.list_ascii_of_string s))
  | _ => inl (TypeError_not_iterable x)
  end.

(** [item.get(key)]: only a dict has the method; a missing key gives
    [None]. *)
Definition get_method (item : json) (key : string) : exn + json :=
  match item with
  | JObj fields => inr (default JNull (dict_get key fields))
  | _ => inl (AttributeError item "get")
  end.

(** The [for] loop of [get_diary_item] with the [raise] that follows
    it. *)
Fixpoint scan_items (item_id : string) (items : list json) : M json :=
  match items with
  | [] => raise (HTTPException 404 "Diary item not found")
  | item :: rest =>
      v <- lift (get_method item "id") ;;
      if eq_str v item_id then ret item else scan_items item_id rest
  end.

(** The body of the [try] of [get_diary_item]. *)
Definition get_diary_item_try (item_id : string) : M json :=
  items <- list_diary ;;
  elements <- lift (iterate items) ;;
  scan_items item_id elements.

Definition get_diary_item (item_id : string) : M json :=
  try_except (get_diary_item_try item_id)
    (fun e =>
       if is_HTTPException e then raise e
       else raise (HTTPException 500 (str e))).

(** [s[:n]] *)
Definition str_prefix (n : nat) (s : string) : string := String.substring 0 n s.

(** [from database import db] *)
Definition import_database : M (option Database) :=
  fun w => (lift (import_db w)) w.

(** The [response] dict of [test_database] as first built. *)
Definition initial_response : list (string * json) :=
  [ ("backend", JStr "✅ Running");
    ("database", JStr "❌ Not Available");
    ("database_url", JNull);
    ("database_name", JNull);
    ("connection_status", JStr "Not Connected");
    ("collections", JArr []) ].

(** In both [try] blocks the only statement that can raise is the first
    one, so an [except] clause sees [response] as it was before the
    block. *)
Definition test_database : M json :=
  let response := initial_response in
  response <-
    try_except
      (db <- import_database ;;
       match db with
       | Some db =>
           let response := dict_set "database" (JStr "✅ Available") response in
           let response := dict_set "database_url" (JStr "✅ Configured") response in
           let response :=
             dict_set "database_name"
               (JStr (match db_name db with Some n => n | None => "✅ Connected" end))
               response in
           let response := dict_set "connection_status" (JStr "Connected") response in
           try_except
             (collections <- lift (list_collection_names db) ;;
              let response :=
                dict_set "collections" (JArr (map JStr (take 10 collections))) response in
              ret (dict_set "database" (JStr "✅ Connected & Working") response))
             (fun e =>
                ret (dict_set "database"
                       (JStr ("⚠️  Connected but Error: " ++ str_prefix 50 (str e)))
                       response))
       | None =>
           ret (dict_set "database" (JStr "⚠️  Available but not initialized") response)
       end)
      (fun e =>
         if is_ImportError e then
           ret (dict_set "database"
                  (JStr "❌ Database module not found (run enable-database first)")
                  response)
         else
           ret (dict_set "database" (JStr ("❌ Error: " ++ str_prefix 50 (str e)))
                  response)) ;;
  url <- os_getenv "DATABASE_URL" ;;
  let response :=
    dict_set "database_url" (JStr (if truthy url then "✅ Set" else "❌ Not Set"))
      response in
  name <- os_getenv "DATABASE_NAME" ;;
  let response :=
    dict_set "database_name" (JStr (if truthy name then "✅ Set" else "❌ Not Set"))
      response in
  ret (JObj response).

(** *** The HTTP surface *)

Inductive request : Type :=
  | GET_root
  | GET_api_profile
  | GET_api_diary
  | GET_api_diary_item (item_id : string)
  | GET_test.

(** The route table built by the [@app.get] decorators. *)
Definition route (req : request) : M json :=
  match req with
  | GET_root => read_root
  | GET_api_profile => get_profile
  | GET_api_diary => list_diary
  | GET_api_diary_item item_id => get_diary_item item_id
  | GET_test => test_database
  end.

(** A value of the [{item_id}] path parameter: one segment of the path,
    not empty and without a slash. *)
Definition path_segment (s : string) : bool :=
  negb (String.eqb s "") && negb (mentions "/" s).

(** [s[len(prefix):]] when [s] starts with [prefix]. *)
Fixpoint strip_prefix (prefix s : string) : option string :=
  match prefix, s with
  | EmptyString, _ => Some s
  | String a prefix', String b s' =>
      if Ascii.eqb a b then strip_prefix prefix' s' else None
  | String _ _, EmptyString => None
  end.

(** The paths of the [@app.get] decorators against the path of a [GET]
    request, in the order of the decorators: the path operation the
    router picks with the path parameter it extracts, nothing when the
    path is none of these (such a request reaches no handler of
    [main.py]). *)
Definition match_route (path : string) : option request :=
  if String.eqb path "/" then Some GET_root
  else if String.eqb path "/api/profile" then Some GET_api_profile
  else if String.eqb path "/api/diary" then Some GET_api_diary
  else
    match strip_prefix "/api/diary/" path with
    | Some item_id =>
        if path_segment item_id then Some (GET_api_diary_item item_id) else None
    | None => if String.eqb path "/test" then Some GET_test else None
    end.

Record response : Type := {
  status : Z;
  body : json
}.

(** The [response_model] argument of the route's decorator, as the check
    applied to a returned value; the root and the diagnostic route declare
    none. *)
Definition response_model (req : request) : option (json -> option json) :=
  match req with
  | GET_root => None
  | GET_api_profile => Some as_Profile
  | GET_api_diary => Some as_List_DiaryItem
  | GET_api_diary_item _ => Some as_DiaryItem
  | GET_test => None
  end.

(** The server's own answer to an exception nobody handled: status 500
    with the plain text [Internal Server Error], kept here as a [JStr]. *)
Definition internal_server_error : response :=
  {| status := 500; body := JStr "Internal Server Error" |}.

(** What the framework makes of a path operation.  A returned value is
    the content of a 200 response: as it is on a route without
    [response_model], validated against the model and serialised from it
    on a route with one, and a value that does not validate is an
    unhandled error.  An [HTTPException] becomes a response with its
    status code and its detail; any other exception is the server's plain
    500. *)
Definition respond (model : option (json -> option json)) (o : outcome json) : response :=
  match o with
  | Return content =>
      match model with
      | None => {| status := 200; body := content |}
      | Some validate =>
          match validate content with
          | Some serialised => {| status := 200; body := serialised |}
          | None => internal_server_error
          end
      end
  | Raise (HTTPException status_code detail) =>
      {| status := status_code; body := JObj [("detail", JStr detail)] |}
  | Raise _ => internal_server_error
  end.

(** A request that the router has matched to its route, served. *)
Definition serve (req : request) : world -> response * world :=
  fun w => let (o, w') := route req w in (respond (response_model req) o, w').

(** ** Properties *)

(** *** Reading a file *)

Lemma read_json_file_present (path text : string) (w : world) :
  files w !! path = Some text ->
  read_json_file path w = lift (json_load text) w.
Proof.
  intros Hfile. unfold read_json_file, bind, os_path_exists, open_.
  rewrite Hfile. rewrite bool_decide_eq_true_2 by eauto.
  cbn. rewrite Hfile. reflexivity.
Qed.

Lemma read_json_file_absent (path : string) (w : world) :
  files w !! path = None ->
  read_json_file path w = (Raise (FileNotFoundError ("File not found: " ++ path)), w).
Proof.
  intros Hfile. unfold read_json_file, bind, os_path_exists.
  rewrite Hfile. rewrite bool_decide_eq_false_2 by (intros [? ?]; discriminate).
  reflexivity.
Qed.

Lemma read_json_file_parsed (path text : string) (data : json) (w : world) :
  files w !! path = Some text ->
  json_load text = inr data ->
  read_json_file path w = (Return data, w).
Proof.
  intros Hfile Hload. rewrite (read_json_file_present _ _ _ Hfile), Hload. reflexivity.
Qed.

(** *** The profile *)

Lemma serve_get_profile (w w' : world) (o : outcome json) :
  get_profile w = (o, w') ->
  serve GET_api_profile w = (respond (Some as_Profile) o, w').
Proof. intros Hget. unfold serve, route. rewrite Hget. reflexivity. Qed.

Lemma get_profile_parsed (w : world) (text : string) (data : json) :
  files w !! PROFILE_PATH = Some text ->
  json_load text = inr data ->
  get_profile w = (Return data, w).
Proof.
  intros Hfile Hload. unfold get_profile, try_except, get_profile_try, bind.
  rewrite (read_json_file_parsed _ _ _ _ Hfile Hload). reflexivity.
Qed.

(** What serialisation through [Profile] keeps and what it adds: the
    entries of the declared scalar fields are the value's own, an absent
    [tagline] is [None], and the keys are the four declared ones. *)
Lemma dump_Profile_fields (fields : list (string * json)) :
  field "name" (dump_Profile (JObj fields)) = Some (default JNull (dict_get "name" fields))
  /\ field "photo_url" (dump_Profile (JObj fields))
     = Some (default JNull (dict_get "photo_url" fields))
  /\ field "tagline" (dump_Profile (JObj fields))
     = Some (default JNull (dict_get "tagline" fields))
  /\ exists out, dump_Profile (JObj fields) = JObj out
                 /\ map fst out = ["name"; "photo_url"; "tagline"; "socials"].
Proof. repeat split. eexists. split; reflexivity. Qed.

(** C1 (amended). When [profile.json] exists and parses to a value of the
    [Profile] shape, [get_profile] returns that very value, untouched, and
    the request is answered with status 200 and that value serialised
    through the [Profile] model: [name], [photo_url] and [tagline] as the
    value has them, [tagline] null when the value has none, [socials] with
    the [label] and [url] of each entry in the same order, and no other
    key. *)
Theorem get_profile_serves_profile_fields (w : world) (text : string) (data : json) :
  files w !! PROFILE_PATH = Some text ->
  json_load text = inr data ->
  Profile data = true ->
  get_profile w = (Return data, w)
  /\ serve GET_api_profile w = ({| status := 200; body := dump_Profile data |}, w)
  /\ field "name" (dump_Profile data) = field "name" data
  /\ field "photo_url" (dump_Profile data) = field "photo_url" data
  /\ field "tagline" (dump_Profile data) = Some (default JNull (field "tagline" data))
  /\ (exists socials : list json,
        field "socials" data = Some (JArr socials)
        /\ field "socials" (dump_Profile data) = Some (JArr (map dump_SocialLink socials))).
Proof.
  intros Hfile Hload Hshape.
  pose proof (get_profile_parsed _ _ _ Hfile Hload) as Hget.
  split; [exact Hget|]. split.
  { rewrite (serve_get_profile _ _ _ Hget). cbn. unfold as_Profile. rewrite Hshape.
    reflexivity. }
  destruct data as [| | | | | |fields]; try discriminate.
  unfold Profile, required in Hshape. cbn [field dump_Profile dict_get declared].
  destruct (dict_get "name" fields) as [name|]; [|discriminate].
  destruct (dict_get "photo_url" fields) as [photo_url|];
    [|rewrite andb_false_r in Hshape; discriminate].
  destruct (dict_get "socials" fields) as [[| | | | |socials|]|];
    try (rewrite ?andb_false_r in Hshape; discriminate).
  cbn. repeat split. exists socials. split; reflexivity.
Qed.

(** C5. When [profile.json] does not exist, [get_profile] raises an
    [HTTPException] with status 404 whose detail names [profile.json], and
    that is the response to the request. *)
Theorem get_profile_missing_file (w : world) :
  files w !! PROFILE_PATH = None ->
  let detail := "profile.json not found. Add it to the backend root." in
  get_profile w = (Raise (HTTPException 404 detail), w)
  /\ mentions "profile.json" detail = true
  /\ serve GET_api_profile w
     = ({| status := 404; body := JObj [("detail", JStr detail)] |}, w).
Proof.
  intros Hfile detail.
  assert (Hget : get_profile w = (Raise (HTTPException 404 detail), w)).
  { unfold get_profile, try_except, get_profile_try, bind.
    rewrite (read_json_file_absent _ _ Hfile). reflexivity. }
  split; [exact Hget|]. split; [reflexivity|].
  exact (serve_get_profile _ _ _ Hget).
Qed.

(** *** The diary list *)

Lemma list_diary_try_parsed (w : world) (text : string) (data : json) :
  files w !! DIARY_PATH = Some text ->
  json_load text = inr data ->
  list_diary_try w
  = (Return match data with
            | JObj fields => default (JArr []) (dict_get "items" fields)
            | JArr _ => data
            | _ => JArr []
            end, w).
Proof.
  intros Hfile Hload. unfold list_diary_try, bind.
  rewrite (read_json_file_parsed _ _ _ _ Hfile Hload).
  destruct data as [| | | | | |fields]; try reflexivity.
  destruct (dict_get "items" fields); reflexivity.
Qed.

Lemma list_diary_returns (w w' : world) (v : json) :
  list_diary_try w = (Return v, w') -> list_diary w = (Return v, w').
Proof. intros Htry. unfold list_diary, try_except. rewrite Htry. reflexivity. Qed.

Lemma serve_list_diary (w w' : world) (o : outcome json) :
  list_diary w = (o, w') ->
  serve GET_api_diary w = (respond (Some as_List_DiaryItem) o, w').
Proof. intros Hlist. unfold serve, route. rewrite Hlist. reflexivity. Qed.

Lemma as_List_DiaryItem_items (items : list json) :
  forallb DiaryItem items = true ->
  as_List_DiaryItem (JArr items) = Some (JArr (map dump_DiaryItem items)).
Proof. intros Hshape. unfold as_List_DiaryItem. cbn. rewrite Hshape. reflexivity. Qed.

(** C3 (amended). A [diary.json] that parses to a bare array makes
    [list_diary] return that array, same items in the same order, and one
    that parses to an object with an ["items"] key makes it return the
    value of that key, as it is.  When what is returned is a list of items
    of the [DiaryItem] shape, the request is answered with status 200 and
    the items in the same order, each serialised through the [DiaryItem]
    model ([id], [title], [date], [summary], [content]; an absent optional
    field null, no other key); when it is anything else, the answer is the
    server's plain 500. *)
Theorem list_diary_serves_both_shapes (w : world) (text : string) :
  files w !! DIARY_PATH = Some text ->
  (forall items : list json,
      json_load text = inr (JArr items) ->
      list_diary w = (Return (JArr items), w)
      /\ (forallb DiaryItem items = true ->
          serve GET_api_diary w
          = ({| status := 200; body := JArr (map dump_DiaryItem items) |}, w))
      /\ (forallb DiaryItem items = false ->
          serve GET_api_diary w = (internal_server_error, w)))
  /\ (forall (fields : list (string * json)) (inner : json),
        json_load text = inr (JObj fields) ->
        dict_get "items" fields = Some inner ->
        list_diary w = (Return inner, w)
        /\ (forall items : list json,
              inner = JArr items -> forallb DiaryItem items = true ->
              serve GET_api_diary w
              = ({| status := 200; body := JArr (map dump_DiaryItem items) |}, w))
        /\ (list_of DiaryItem inner = false ->
            serve GET_api_diary w = (internal_server_error, w))).
Proof.
  intros Hfile. split.
  - intros items Hload.
    pose proof (list_diary_returns _ _ _ (list_diary_try_parsed _ _ _ Hfile Hload)) as Hlist.
    split; [exact Hlist|]. rewrite (serve_list_diary _ _ _ Hlist). split.
    + intros Hshape. cbn. rewrite (as_List_DiaryItem_items _ Hshape). reflexivity.
    + intros Hshape. cbn. unfold as_List_DiaryItem. cbn. rewrite Hshape. reflexivity.
  - intros fields inner Hload Hitems.
    pose proof (list_diary_returns _ _ _ (list_diary_try_parsed _ _ _ Hfile Hload)) as Hlist.
    cbn in Hlist. rewrite Hitems in Hlist.
    split; [exact Hlist|]. rewrite (serve_list_diary _ _ _ Hlist). split.
    + intros items -> Hshape. cbn. rewrite (as_List_DiaryItem_items _ Hshape). reflexivity.
    + intros Hshape. cbn. unfold as_List_DiaryItem. rewrite Hshape. reflexivity.
Qed.

Lemma list_diary_absent (w : world) :
  files w !! DIARY_PATH = None -> list_diary w = (Return (JArr []), w).
Proof.
  intros Hfile. unfold list_diary, try_except, list_diary_try, bind.
  rewrite (read_json_file_absent _ _ Hfile). reflexivity.
Qed.

(** C4. When [diary.json] does not exist, the diary list is the empty
    array, answered with status 200. *)
Theorem list_diary_missing_file (w : world) :
  files w !! DIARY_PATH = None ->
  list_diary w = (Return (JArr []), w)
  /\ serve GET_api_diary w = ({| status := 200; body := JArr [] |}, w).
Proof.
  intros Hfile. pose proof (list_diary_absent w Hfile) as Hlist.
  split; [exact Hlist|]. exact (serve_list_diary _ _ _ Hlist).
Qed.

(** C9. When [diary.json] parses to a value that is neither a list nor an
    object with an ["items"] key, the diary list is the empty array,
    answered with status 200. *)
Theorem list_diary_other_shape (w : world) (text : string) (data : json) :
  files w !! DIARY_PATH = Some text ->
  json_load text = inr data ->
  is_list data = false ->
  (forall fields, data = JObj fields -> dict_get "items" fields = None) ->
  list_diary w = (Return (JArr []), w)
  /\ serve GET_api_diary w = ({| status := 200; body := JArr [] |}, w).
Proof.
  intros Hfile Hload Hlist Hobj.
  pose proof (list_diary_returns _ _ _ (list_diary_try_parsed _ _ _ Hfile Hload)) as Hret.
  assert (Hempty : match data with
                   | JObj fields => default (JArr []) (dict_get "items" fields)
                   | JArr _ => data
                   | _ => JArr []
                   end = JArr []).
  { destruct data as [| | | | | |fields]; try reflexivity; try discriminate.
    rewrite (Hobj fields eq_refl). reflexivity. }
  rewrite Hempty in Hret.
  split; [exact Hret|]. exact (serve_list_diary _ _ _ Hret).
Qed.

(** *** One diary item *)

Lemma DiaryItem_is_dict (x : json) : DiaryItem x = true -> is_dict x = true.
Proof. destruct x; first [discriminate | reflexivity]. Qed.

Lemma DiaryItems_are_dicts (items : list json) :
  forallb DiaryItem items = true -> forallb is_dict items = true.
Proof.
  induction items as [|item rest IH]; [reflexivity|]. cbn [forallb].
  intros [Hitem Hrest]%andb_prop.
  rewrite (DiaryItem_is_dict _ Hitem). exact (IH Hrest).
Qed.

Lemma scan_items_no_match (item_id : string) (items : list json) (w : world) :
  forallb is_dict items = true ->
  forallb (fun item => negb (has_id item_id item)) items = true ->
  scan_items item_id items w = (Raise (HTTPException 404 "Diary item not found"), w).
Proof.
  induction items as [|item rest IH]; intros Hdict Hnone; [reflexivity|].
  cbn in Hdict, Hnone.
  apply andb_prop in Hdict as [Hitem Hdict]. apply andb_prop in Hnone as [Hid Hnone].
  destruct item as [| | | | | |fields]; try discriminate.
  cbn [scan_items get_method lift]. unfold bind, ret.
  unfold has_id, required in Hid.
  destruct (dict_get "id" fields) as [v|]; cbn in *.
  - apply negb_true_iff in Hid. rewrite Hid. apply IH; assumption.
  - apply IH; assumption.
Qed.

Lemma scan_items_first_match (item_id : string) (pre post : list json) (item : json)
    (w : world) :
  forallb is_dict pre = true ->
  forallb (fun x => negb (has_id item_id x)) pre = true ->
  has_id item_id item = true ->
  scan_items item_id (pre ++ item :: post) w = (Return item, w).
Proof.
  intros Hdict Hnone Hid. induction pre as [|x pre IH].
  - destruct item as [| | | | | |fields]; try discriminate.
    cbn [app scan_items get_method lift]. unfold bind, ret.
    unfold has_id, required in Hid.
    destruct (dict_get "id" fields) as [v|]; [|discriminate].
    cbn. rewrite Hid. reflexivity.
  - cbn in Hdict, Hnone.
    apply andb_prop in Hdict as [Hx Hdict]. apply andb_prop in Hnone as [Hxid Hnone].
    destruct x as [| | | | | |fields]; try discriminate.
    cbn [app scan_items get_method lift]. unfold bind, ret.
    unfold has_id, required in Hxid.
    destruct (dict_get "id" fields) as [v|]; cbn in *.
    + apply negb_true_iff in Hxid. rewrite Hxid. apply IH; assumption.
    + apply IH; assumption.
Qed.

Lemma get_diary_item_scans (item_id : string) (items : list json) (w w' : world)
    (o : outcome json) :
  list_diary w = (Return (JArr items), w') ->
  scan_items item_id items w' = (o, w') ->
  (forall e, o = Raise e -> is_HTTPException e = true) ->
  get_diary_item item_id w = (o, w').
Proof.
  intros Hlist Hscan Hhttp.
  unfold get_diary_item, try_except, get_diary_item_try, bind.
  rewrite Hlist. cbn. rewrite Hscan.
  destruct o as [item|e]; [reflexivity|].
  rewrite (Hhttp e eq_refl). reflexivity.
Qed.

Lemma serve_get_diary_item (item_id : string) (w w' : world) (o : outcome json) :
  get_diary_item item_id w = (o, w') ->
  serve (GET_api_diary_item item_id) w = (respond (Some as_DiaryItem) o, w').
Proof. intros Hget. unfold serve, route. rewrite Hget. reflexivity. Qed.

(** C2 (amended). Over a diary list of objects, [get_diary_item] returns
    the first item in list order whose ["id"] field equals the requested
    id: every item in front of it has another id or none.  The request is
    then answered with status 200 and that item serialised through the
    [DiaryItem] model ([id], [title], [date], [summary], [content]; an
    absent optional field null, no other key) when the item has the
    [DiaryItem] shape, and with the server's plain 500 when it has not.
    When no item has that id the answer is 404, and so it is when
    [diary.json] does not exist. *)
Theorem get_diary_item_serves_first_match (w w' : world) (item_id : string) :
  (forall (pre post : list json) (item : json),
      list_diary w = (Return (JArr (pre ++ item :: post)), w') ->
      forallb is_dict pre = true ->
      forallb (fun x => negb (has_id item_id x)) pre = true ->
      has_id item_id item = true ->
      get_diary_item item_id w = (Return item, w')
      /\ serve (GET_api_diary_item item_id) w
         = (if DiaryItem item
            then {| status := 200; body := dump_DiaryItem item |}
            else internal_server_error, w'))
  /\ (forall items : list json,
        list_diary w = (Return (JArr items), w') ->
        forallb is_dict items = true ->
        forallb (fun x => negb (has_id item_id x)) items = true ->
        serve (GET_api_diary_item item_id) w
        = ({| status := 404; body := JObj [("detail", JStr "Diary item not found")] |}, w'))
  /\ (files w !! DIARY_PATH = None ->
      serve (GET_api_diary_item item_id) w
      = ({| status := 404; body := JObj [("detail", JStr "Diary item not found")] |}, w)).
Proof.
  split; [|split].
  - intros pre post item Hlist Hdict Hnone Hid.
    assert (Hget : get_diary_item item_id w = (Return item, w')).
    { apply (get_diary_item_scans _ _ _ _ _ Hlist).
      - apply scan_items_first_match; assumption.
      - intros e He. discriminate. }
    split; [exact Hget|]. rewrite (serve_get_diary_item _ _ _ _ Hget).
    cbn. unfold as_DiaryItem. destruct (DiaryItem item); reflexivity.
  - intros items Hlist Hdict Hnone.
    apply (serve_get_diary_item _ _ _ (Raise (HTTPException 404 "Diary item not found"))).
    apply (get_diary_item_scans _ _ _ _ _ Hlist).
    + apply scan_items_no_match; assumption.
    + intros e He. injection He as <-. reflexivity.
  - intros Hfile.
    pose proof (list_diary_absent w Hfile) as Hlist.
    apply (serve_get_diary_item _ _ _ (Raise (HTTPException 404 "Diary item not found"))).
    apply (get_diary_item_scans _ _ _ _ _ Hlist); [reflexivity|].
    intros e He. injection He as <-. reflexivity.
Qed.

(** An element that is not an object stops the scan: [item.get] does not
    exist on it, and the request ends in a 500. *)
Lemma scan_items_not_a_dict (item_id : string) (item : json) (rest : list json)
    (w : world) :
  is_dict item = false ->
  scan_items item_id (item :: rest) w = (Raise (AttributeError item "get"), w).
Proof. intros Hitem. destruct item; try discriminate; reflexivity. Qed.

(** *** Failures *)

Lemma try_except_raises {A} (body : M A) (handler : exn -> M A) (w w' : world) (e : exn) :
  body w = (Raise e, w') -> try_except body handler w = handler e w'.
Proof. intros Hbody. unfold try_except. rewrite Hbody. reflexivity. Qed.

(** C6. An exception raised in the body of the profile, diary-list or
    diary-item handler that is neither [FileNotFoundError] nor an
    [HTTPException] is answered with status 500 and [str(e)] as detail; an
    [HTTPException] raised in the body of the diary-item handler leaves it
    as it is. *)
Theorem unexpected_exception_is_500 (w w' : world) (e : exn) (item_id : string) :
  is_FileNotFoundError e = false ->
  is_HTTPException e = false ->
  (get_profile_try w = (Raise e, w') ->
   serve GET_api_profile w
   = ({| status := 500; body := JObj [("detail", JStr (str e))] |}, w'))
  /\ (list_diary_try w = (Raise e, w') ->
      serve GET_api_diary w
      = ({| status := 500; body := JObj [("detail", JStr (str e))] |}, w'))
  /\ (get_diary_item_try item_id w = (Raise e, w') ->
      serve (GET_api_diary_item item_id) w
      = ({| status := 500; body := JObj [("detail", JStr (str e))] |}, w'))
  /\ (forall (status_code : Z) (detail : string),
        get_diary_item_try item_id w = (Raise (HTTPException status_code detail), w') ->
        get_diary_item item_id w = (Raise (HTTPException status_code detail), w')
        /\ serve (GET_api_diary_item item_id) w
           = ({| status := status_code; body := JObj [("detail", JStr detail)] |}, w')).
Proof.
  intros Hfnf Hhttp. split; [|split; [|split]].
  - intros Hbody. unfold serve, route, get_profile.
    rewrite (try_except_raises _ _ _ _ _ Hbody), Hfnf. reflexivity.
  - intros Hbody. unfold serve, route, list_diary.
    rewrite (try_except_raises _ _ _ _ _ Hbody), Hfnf. reflexivity.
  - intros Hbody. unfold serve, route, get_diary_item.
    rewrite (try_except_raises _ _ _ _ _ Hbody), Hhttp. reflexivity.
  - intros status_code detail Hbody.
    assert (Hget : get_diary_item item_id w
                   = (Raise (HTTPException status_code detail), w')).
    { unfold get_diary_item. rewrite (try_except_raises _ _ _ _ _ Hbody). reflexivity. }
    split; [exact Hget|]. unfold serve, route. rewrite Hget. reflexivity.
Qed.

(** Whatever goes wrong, the three handlers raise nothing but
    [HTTPException]s: the framework's own 500 is never needed. *)
Lemma try_except_raises_only_HTTPException {A} (body : M A) (handler : exn -> M A) :
  (forall e, raises_only_HTTPException (handler e)) ->
  raises_only_HTTPException (try_except body handler).
Proof.
  intros Hhandler w e. unfold try_except.
  destruct (body w) as [[a|e0] w1]; [discriminate|]. apply Hhandler.
Qed.

Lemma get_profile_raises_only_HTTPException : raises_only_HTTPException get_profile.
Proof.
  apply try_except_raises_only_HTTPException.
  intros e0 w e. destruct (is_FileNotFoundError e0); intros [= <-]; reflexivity.
Qed.

Lemma list_diary_raises_only_HTTPException : raises_only_HTTPException list_diary.
Proof.
  apply try_except_raises_only_HTTPException.
  intros e0 w e. destruct (is_FileNotFoundError e0); [discriminate|].
  intros [= <-]. reflexivity.
Qed.

Lemma get_diary_item_raises_only_HTTPException (item_id : string) :
  raises_only_HTTPException (get_diary_item item_id).
Proof.
  apply try_except_raises_only_HTTPException.
  intros e0 w e. destruct (is_HTTPException e0) eqn:Hhttp; intros [= <-];
    [exact Hhttp|reflexivity].
Qed.

(** *** The diagnostic route *)

Ltac run_test_database :=
  unfold serve, route, test_database, try_except, bind, import_database, os_getenv;
  cbn [lift raise ret].

(** C7. Whatever the import of the database module does, whatever the
    database answers and whatever the environment holds, the diagnostic
    route returns its report with status 200; a failed import, a missing
    [db] and a failing collection listing each end up as a text in the
    ["database"] field. *)
Theorem test_database_never_fails (w : world) :
  (exists report : list (string * json),
      test_database w = (Return (JObj report), w)
      /\ serve GET_test w = ({| status := 200; body := JObj report |}, w))
  /\ (forall e : exn,
        import_db w = inl e ->
        field "database" (body (serve GET_test w).1)
        = Some (JStr (if is_ImportError e
                      then "❌ Database module not found (run enable-database first)"
                      else "❌ Error: " ++ str_prefix 50 (str e))))
  /\ (import_db w = inr None ->
      field "database" (body (serve GET_test w).1)
      = Some (JStr "⚠️  Available but not initialized"))
  /\ (forall (db : Database) (e : exn),
        import_db w = inr (Some db) ->
        list_collection_names db = inl e ->
        field "database" (body (serve GET_test w).1)
        = Some (JStr ("⚠️  Connected but Error: " ++ str_prefix 50 (str e)))).
Proof.
  repeat split.
  - run_test_database.
    destruct (import_db w) as [e|[db|]]; cbn [lift raise ret].
    + destruct (is_ImportError e); eexists; split; reflexivity.
    + destruct (list_collection_names db) as [e|names]; eexists; split; reflexivity.
    + eexists; split; reflexivity.
  - intros e Himport. run_test_database. rewrite Himport. cbn [lift raise ret].
    destruct (is_ImportError e); reflexivity.
  - intros Himport. run_test_database. rewrite Himport. reflexivity.
  - intros db e Himport Hlist. run_test_database. rewrite Himport. cbn [lift raise ret].
    rewrite Hlist. reflexivity.
Qed.

(** C10. The ["collections"] field of the diagnostic report is a list of
    at most 10 entries: empty unless the collection names could be listed,
    and then their first 10. *)
Theorem test_database_collections_bound (w : world) :
  exists names : list json,
    field "collections" (body (serve GET_test w).1) = Some (JArr names)
    /\ (length names <= 10)%nat
    /\ (forall (db : Database) (all : list string),
          import_db w = inr (Some db) ->
          list_collection_names db = inr all ->
          names = map JStr (take 10 all)).
Proof.
  run_test_database.
  destruct (import_db w) as [e|[db|]] eqn:Himport; cbn [lift raise ret].
  - exists []. destruct (is_ImportError e); (split; [reflexivity|]); split;
      [cbn; lia|discriminate|cbn; lia|discriminate].
  - destruct (list_collection_names db) as [e|all] eqn:Hlist.
    + exists []. split; [reflexivity|]. split; [cbn; lia|].
      intros db' all' [= <-] Hlist'. congruence.
    + exists (map JStr (take 10 all)). split; [reflexivity|]. split.
      * rewrite length_map, length_take. lia.
      * intros db' all' [= <-] Hlist'. congruence.
  - exists []. split; [reflexivity|]. split; [cbn; lia|discriminate].
Qed.

(** *** Nothing is written *)

Lemma read_only_ret {A} (a : A) : read_only (ret a).
Proof. intros w. reflexivity. Qed.

Lemma read_only_raise {A} (e : exn) : read_only (@raise A e).
Proof. intros w. reflexivity. Qed.

Lemma read_only_lift {A} (r : exn + A) : read_only (lift r).
Proof. destruct r; intros w; reflexivity. Qed.

Lemma read_only_bind {A B} (m : M A) (k : A -> M B) :
  read_only m -> (forall a, read_only (k a)) -> read_only (bind m k).
Proof.
  intros Hm Hk w. unfold bind. specialize (Hm w).
  destruct (m w) as [[a|e] w1]; cbn in Hm; subst w1; [apply Hk|reflexivity].
Qed.

Lemma read_only_try_except {A} (body : M A) (handler : exn -> M A) :
  read_only body -> (forall e, read_only (handler e)) -> read_only (try_except body handler).
Proof.
  intros Hbody Hhandler w. unfold try_except. specialize (Hbody w).
  destruct (body w) as [[a|e] w1]; cbn in Hbody; subst w1; [reflexivity|apply Hhandler].
Qed.

Lemma read_only_os_path_exists (path : string) : read_only (os_path_exists path).
Proof. intros w. reflexivity. Qed.

Lemma read_only_os_getenv (name : string) : read_only (os_getenv name).
Proof. intros w. reflexivity. Qed.

Lemma read_only_import_database : read_only import_database.
Proof. intros w. unfold import_database. destruct (import_db w); reflexivity. Qed.

(** Opening for reading writes nothing. *)
Lemma read_only_open_r (path : string) : read_only (open_ path "r").
Proof. intros w. unfold open_. cbn. destruct (files w !! path); reflexivity. Qed.

(** Opening for writing does: the model can tell the two apart. *)
Lemma open_w_truncates (path : string) (w : world) :
  files (open_ path "w" w).2 !! path = Some "".
Proof. unfold open_. cbn. apply lookup_insert_eq. Qed.

Create HintDb read_only discriminated.
#[local] Hint Resolve read_only_ret read_only_raise read_only_lift read_only_os_path_exists
  read_only_os_getenv read_only_import_database read_only_open_r : read_only.

Ltac read_only_step :=
  match goal with
  | |- read_only (bind _ _) => apply read_only_bind; [|intros ?]
  | |- read_only (try_except _ _) => apply read_only_try_except; [|intros ?]
  | |- read_only (if ?b then _ else _) => destruct b
  | |- read_only (match ?x with _ => _ end) => destruct x
  | |- forall _, _ => intros ?
  | |- _ => solve [auto with read_only]
  end.

Lemma read_only_read_json_file (path : string) : read_only (read_json_file path).
Proof. unfold read_json_file. repeat read_only_step. Qed.

Lemma read_only_get_profile : read_only get_profile.
Proof.
  unfold get_profile, get_profile_try.
  repeat first [apply read_only_read_json_file | read_only_step].
Qed.

Lemma read_only_list_diary : read_only list_diary.
Proof.
  unfold list_diary, list_diary_try.
  repeat first [apply read_only_read_json_file | read_only_step].
Qed.

Lemma read_only_scan_items (item_id : string) (items : list json) :
  read_only (scan_items item_id items).
Proof.
  induction items as [|item rest IH]; cbn [scan_items]; [auto with read_only|].
  repeat first [exact IH | read_only_step].
Qed.

Lemma read_only_get_diary_item (item_id : string) : read_only (get_diary_item item_id).
Proof.
  unfold get_diary_item, get_diary_item_try.
  repeat first [apply read_only_list_diary | apply read_only_scan_items | read_only_step].
Qed.

Lemma read_only_test_database : read_only test_database.
Proof. unfold test_database. repeat read_only_step. Qed.

Lemma read_only_route (req : request) : read_only (route req).
Proof.
  destruct req; cbn [route].
  - apply read_only_ret.
  - apply read_only_get_profile.
  - apply read_only_list_diary.
  - apply read_only_get_diary_item.
  - apply read_only_test_database.
Qed.

(** C8. Serving a request, whichever it is and however it ends, leaves
    every file as it was; [profile.json] and [diary.json] in particular
    have the same content, or the same absence, after the response as
    before the request. *)
Theorem serve_writes_nothing (req : request) (w : world) :
  files (serve req w).2 = files w
  /\ files (serve req w).2 !! PROFILE_PATH = files w !! PROFILE_PATH
  /\ files (serve req w).2 !! DIARY_PATH = files w !! DIARY_PATH.
Proof.
  assert (Hsame : (serve req w).2 = w).
  { unfold serve. pose proof (read_only_route req w) as Hroute.
    destruct (route req w) as [o w1]. exact Hroute. }
  rewrite Hsame. repeat split.
Qed.

(** ** Further properties of the handlers *)

(** *** What a response depends on *)

Lemma determined_by_ret {A} (R : world -> world -> Prop) (a : A) : determined_by R (ret a).
Proof. intros w1 w2 _. reflexivity. Qed.

Lemma determined_by_raise {A} (R : world -> world -> Prop) (e : exn) :
  determined_by R (@raise A e).
Proof. intros w1 w2 _. reflexivity. Qed.

Lemma determined_by_lift {A} (R : world -> world -> Prop) (r : exn + A) :
  determined_by R (lift r).
Proof. destruct r; intros w1 w2 _; reflexivity. Qed.

Lemma determined_by_bind {A B} (R : world -> world -> Prop) (m : M A) (k : A -> M B) :
  read_only m -> determined_by R m -> (forall a, determined_by R (k a)) ->
  determined_by R (bind m k).
Proof.
  intros Hro Hm Hk w1 w2 HR. unfold bind.
  pose proof (Hm w1 w2 HR) as Hsame. pose proof (Hro w1) as H1. pose proof (Hro w2) as H2.
  destruct (m w1) as [o1 w1'], (m w2) as [o2 w2']. cbn in Hsame, H1, H2. subst.
  destruct o2 as [a|e]; [apply Hk; exact HR|reflexivity].
Qed.

Lemma determined_by_try_except {A} (R : world -> world -> Prop) (body : M A)
    (handler : exn -> M A) :
  read_only body -> determined_by R body -> (forall e, determined_by R (handler e)) ->
  determined_by R (try_except body handler).
Proof.
  intros Hro Hbody Hhandler w1 w2 HR. unfold try_except.
  pose proof (Hbody w1 w2 HR) as Hsame. pose proof (Hro w1) as H1. pose proof (Hro w2) as H2.
  destruct (body w1) as [o1 w1'], (body w2) as [o2 w2']. cbn in Hsame, H1, H2. subst.
  destruct o2 as [a|e]; [reflexivity|apply Hhandler; exact HR].
Qed.

Lemma determined_by_read_json_file (path : string) :
  determined_by (same_file path) (read_json_file path).
Proof.
  intros w1 w2 HR. unfold same_file in HR.
  destruct (files w2 !! path) as [text|] eqn:Hfile.
  - rewrite (read_json_file_present _ _ _ HR), (read_json_file_present _ _ _ Hfile).
    destruct (json_load text); reflexivity.
  - rewrite (read_json_file_absent _ _ HR), (read_json_file_absent _ _ Hfile). reflexivity.
Qed.

Lemma determined_by_scan_items (R : world -> world -> Prop) (item_id : string)
    (items : list json) :
  determined_by R (scan_items item_id items).
Proof.
  induction items as [|item rest IH]; cbn [scan_items].
  - apply determined_by_raise.
  - apply determined_by_bind; [apply read_only_lift|apply determined_by_lift|].
    intros v. destruct (eq_str v item_id); [apply determined_by_ret|exact IH].
Qed.

Lemma determined_by_get_profile : determined_by (same_file PROFILE_PATH) get_profile.
Proof.
  apply determined_by_try_except.
  - unfold get_profile_try. repeat first [apply read_only_read_json_file | read_only_step].
  - apply determined_by_bind;
      [apply read_only_read_json_file|apply determined_by_read_json_file|].
    intros data. apply determined_by_ret.
  - intros e. destruct (is_FileNotFoundError e); apply determined_by_raise.
Qed.

Lemma determined_by_list_diary : determined_by (same_file DIARY_PATH) list_diary.
Proof.
  apply determined_by_try_except.
  - unfold list_diary_try. repeat first [apply read_only_read_json_file | read_only_step].
  - apply determined_by_bind;
      [apply read_only_read_json_file|apply determined_by_read_json_file|].
    intros [| | | | | |fields]; try apply determined_by_ret.
    destruct (dict_get "items" fields); apply determined_by_ret.
  - intros e. destruct (is_FileNotFoundError e);
      [apply determined_by_ret|apply determined_by_raise].
Qed.

Lemma determined_by_get_diary_item (item_id : string) :
  determined_by (same_file DIARY_PATH) (get_diary_item item_id).
Proof.
  apply determined_by_try_except.
  - unfold get_diary_item_try.
    repeat first [apply read_only_list_diary | apply read_only_scan_items | read_only_step].
  - apply determined_by_bind; [apply read_only_list_diary|apply determined_by_list_diary|].
    intros items.
    apply determined_by_bind; [apply read_only_lift|apply determined_by_lift|].
    intros elements. apply determined_by_scan_items.
  - intros e. destruct (is_HTTPException e); apply determined_by_raise.
Qed.

Lemma serve_outcome (req : request) (w : world) :
  (serve req w).1 = respond (response_model req) (route req w).1.
Proof. unfold serve. destruct (route req w) as [o w1]. reflexivity. Qed.

Lemma serve_world (req : request) (w : world) : (serve req w).2 = w.
Proof.
  unfold serve. pose proof (read_only_route req w) as Hroute.
  destruct (route req w) as [o w1]. exact Hroute.
Qed.

(** Reading a file through [read_json_file] gives exactly what
    [json.load] makes of its text, a value or the parser's exception; a
    missing file gives the function's own [FileNotFoundError] with the
    path in it, never the one [open] would raise.  The world is left as it
    was. *)
Lemma read_json_file_outcome (path : string) (w : world) :
  read_json_file path w
  = (match files w !! path with
     | Some text =>
         match json_load text with
         | inr data => Return data
         | inl e => Raise e
         end
     | None => Raise (FileNotFoundError ("File not found: " ++ path))
     end, w).
Proof.
  destruct (files w !! path) as [text|] eqn:Hfile.
  - rewrite (read_json_file_present _ _ _ Hfile). destruct (json_load text); reflexivity.
  - apply read_json_file_absent. exact Hfile.
Qed.

(** X1. A response does not depend on the requests served before it:
    after any request, any request is answered as it would have been in
    the first place. *)
Theorem serve_history_independent (earlier req : request) (w : world) :
  serve req (serve earlier w).2 = serve req w.
Proof. rewrite serve_world. reflexivity. Qed.

(** X2. The answer to [GET /api/profile] depends on [profile.json] alone:
    two worlds that agree on that file get the same response, whatever
    else differs (other files, the environment, the database module). *)
Theorem profile_depends_on_profile_json (w1 w2 : world) :
  files w1 !! PROFILE_PATH = files w2 !! PROFILE_PATH ->
  (serve GET_api_profile w1).1 = (serve GET_api_profile w2).1.
Proof.
  intros Hsame. rewrite !serve_outcome. cbn [route].
  rewrite (determined_by_get_profile w1 w2 Hsame). reflexivity.
Qed.

(** X3. The answers to [GET /api/diary] and [GET /api/diary/{item_id}]
    depend on [diary.json] alone. *)
Theorem diary_depends_on_diary_json (w1 w2 : world) (item_id : string) :
  files w1 !! DIARY_PATH = files w2 !! DIARY_PATH ->
  (serve GET_api_diary w1).1 = (serve GET_api_diary w2).1
  /\ (serve (GET_api_diary_item item_id) w1).1 = (serve (GET_api_diary_item item_id) w2).1.
Proof.
  intros Hsame. rewrite !serve_outcome. cbn [route].
  rewrite (determined_by_list_diary w1 w2 Hsame).
  rewrite (determined_by_get_diary_item item_id w1 w2 Hsame). split; reflexivity.
Qed.

(** X4. The diagnostic report depends on the database module and on the
    two environment variables only, and the root route on nothing: files
    play no part in either. *)
Theorem diagnostics_ignore_files (w1 w2 : world) :
  (same_database_settings w1 w2 -> (serve GET_test w1).1 = (serve GET_test w2).1)
  /\ (serve GET_root w1).1 = (serve GET_root w2).1.
Proof.
  split; [|reflexivity].
  intros (Himport & Hurl & Hname).
  unfold serve, route, test_database, try_except, bind, import_database, os_getenv.
  rewrite Himport.
  destruct (import_db w2) as [e|[db|]]; cbn [lift raise ret].
  - destruct (is_ImportError e); cbn [lift raise ret]; rewrite Hurl, Hname; reflexivity.
  - destruct (list_collection_names db); cbn [lift raise ret]; rewrite Hurl, Hname;
      reflexivity.
  - cbn [lift raise ret]. rewrite Hurl, Hname. reflexivity.
Qed.

(** *** Two separate files, read afresh *)

Lemma lookup_edit_file (path : string) (content : option string) (w : world) :
  files (edit_file path content w) !! path = content.
Proof.
  destruct content as [text|]; cbn; [apply lookup_insert_eq|apply lookup_delete_eq].
Qed.

Lemma lookup_edit_file_ne (path other : string) (content : option string) (w : world) :
  path <> other -> files (edit_file path content w) !! other = files w !! other.
Proof.
  intros Hne. destruct content as [text|]; cbn;
    [apply lookup_insert_ne|apply lookup_delete_ne]; exact Hne.
Qed.

Lemma string_app_inv_head (a b c : string) : a ++ b = a ++ c -> b = c.
Proof. apply String.app_inj. Qed.

Lemma string_app_assoc (a b c : string) : (a ++ b) ++ c = a ++ b ++ c.
Proof.
  induction a as [|ch a IH]; [reflexivity|].
  change (String ch ((a ++ b) ++ c) = String ch (a ++ b ++ c)). f_equal. exact IH.
Qed.

Lemma os_path_join_relative (a b : string) :
  String.prefix "/" b = false ->
  exists dir : string, os_path_join a b = dir ++ b
                       /\ forall b', String.prefix "/" b' = false ->
                                     os_path_join a b' = dir ++ b'.
Proof.
  intros Hrel. unfold os_path_join.
  destruct (String.eqb a "") eqn:Hempty.
  - exists "". rewrite Hrel. split; [reflexivity|]. intros b' ->. reflexivity.
  - destruct (String.eqb (String.substring (String.length a - 1) 1 a) "/").
    + exists a. rewrite Hrel. split; [reflexivity|]. intros b' ->. reflexivity.
    + exists (a ++ "/"). rewrite Hrel.
      split; [|intros b' ->]; rewrite string_app_assoc; reflexivity.
Qed.

Lemma PROFILE_PATH_neq_DIARY_PATH : PROFILE_PATH <> DIARY_PATH.
Proof.
  unfold PROFILE_PATH, DIARY_PATH.
  destruct (os_path_join_relative BACKEND_DIR "profile.json" eq_refl) as (dir & -> & Hother).
  rewrite (Hother "diary.json" eq_refl).
  intros Heq. apply string_app_inv_head in Heq. discriminate Heq.
Qed.

(** X5. [profile.json] and [diary.json] are two different files wherever
    the backend is installed, and each route reads only its own: writing
    or removing [diary.json] changes nothing in the answer to
    [GET /api/profile], and writing or removing [profile.json] changes
    nothing in the answers of the two diary routes. *)
Theorem profile_and_diary_are_separate (w : world) (content : option string)
    (item_id : string) :
  PROFILE_PATH <> DIARY_PATH
  /\ (serve GET_api_profile (edit_file DIARY_PATH content w)).1
     = (serve GET_api_profile w).1
  /\ (serve GET_api_diary (edit_file PROFILE_PATH content w)).1
     = (serve GET_api_diary w).1
  /\ (serve (GET_api_diary_item item_id) (edit_file PROFILE_PATH content w)).1
     = (serve (GET_api_diary_item item_id) w).1.
Proof.
  pose proof PROFILE_PATH_neq_DIARY_PATH as Hne.
  split; [exact Hne|]. rewrite !serve_outcome. cbn [route].
  split; [|split]; f_equal.
  - apply determined_by_get_profile. unfold same_file.
    apply lookup_edit_file_ne. congruence.
  - apply determined_by_list_diary. unfold same_file.
    apply lookup_edit_file_ne. exact Hne.
  - apply determined_by_get_diary_item. unfold same_file.
    apply lookup_edit_file_ne. exact Hne.
Qed.

(** X6. Nothing is cached: whatever the world was, once a file has been
    rewritten with a text that parses, the handler returns the new parsed
    value at the next request, and a new value of the documented shape (a
    [Profile], a list of [DiaryItem]s) is what the response serialises;
    once the file has been removed the profile is a 404 and the diary is
    empty. *)
Theorem edits_are_served_at_once (w : world) (text : string) (data : json) :
  json_load text = inr data ->
  (get_profile (edit_file PROFILE_PATH (Some text) w)).1 = Return data
  /\ (Profile data = true ->
      (serve GET_api_profile (edit_file PROFILE_PATH (Some text) w)).1
      = {| status := 200; body := dump_Profile data |})
  /\ (forall items : list json,
        data = JArr items ->
        (list_diary (edit_file DIARY_PATH (Some text) w)).1 = Return (JArr items)
        /\ (forallb DiaryItem items = true ->
            (serve GET_api_diary (edit_file DIARY_PATH (Some text) w)).1
            = {| status := 200; body := JArr (map dump_DiaryItem items) |}))
  /\ status (serve GET_api_profile (edit_file PROFILE_PATH None w)).1 = 404
  /\ (serve GET_api_diary (edit_file DIARY_PATH None w)).1
     = {| status := 200; body := JArr [] |}.
Proof.
  intros Hload. rewrite !serve_outcome. cbn [route response_model].
  pose proof (get_profile_parsed _ text data
                (lookup_edit_file PROFILE_PATH (Some text) w) Hload) as Hget.
  split; [rewrite Hget; reflexivity|]. split; [|split; [|split]].
  - intros Hshape. rewrite Hget. cbn. unfold as_Profile. rewrite Hshape. reflexivity.
  - intros items ->.
    rewrite (list_diary_returns _ _ _
               (list_diary_try_parsed _ text _
                  (lookup_edit_file DIARY_PATH (Some text) w) Hload)).
    split; [reflexivity|]. intros Hshape. cbn.
    rewrite (as_List_DiaryItem_items _ Hshape). reflexivity.
  - unfold get_profile, try_except, get_profile_try, bind.
    rewrite (read_json_file_absent _ _ (lookup_edit_file _ None _)). reflexivity.
  - rewrite (list_diary_absent _ (lookup_edit_file _ None _)). reflexivity.
Qed.

(** *** The scan of the diary, in general *)

Lemma scan_items_dict (item_id : string) (fields : list (string * json))
    (rest : list json) (w : world) :
  scan_items item_id (JObj fields :: rest) w
  = if has_id item_id (JObj fields) then (Return (JObj fields), w)
    else scan_items item_id rest w.
Proof.
  cbn [scan_items get_method lift]. unfold bind, ret, has_id, required.
  destruct (dict_get "id" fields) as [v|]; cbn;
    [destruct (eq_str v item_id)|]; reflexivity.
Qed.

Lemma scan_items_returns (item_id : string) (items : list json) (item : json) (w : world) :
  (scan_items item_id items w).1 = Return item ->
  In item items /\ has_id item_id item = true.
Proof.
  induction items as [|x rest IH]; [discriminate|].
  destruct (is_dict x) eqn:Hdict.
  - destruct x as [| | | | | |fields]; try discriminate.
    rewrite scan_items_dict. destruct (has_id item_id (JObj fields)) eqn:Hid.
    + intros [= <-]. split; [left; reflexivity|exact Hid].
    + intros Hrest. destruct (IH Hrest) as [Hin Hitem]. split; [right; exact Hin|exact Hitem].
  - rewrite (scan_items_not_a_dict _ _ _ _ Hdict). discriminate.
Qed.

Lemma scan_items_raises_HTTPException (item_id : string) (items : list json) (w : world)
    (status_code : Z) (detail : string) :
  (scan_items item_id items w).1 = Raise (HTTPException status_code detail) ->
  status_code = 404 /\ detail = "Diary item not found"
  /\ forallb is_dict items = true
  /\ forallb (fun x => negb (has_id item_id x)) items = true.
Proof.
  induction items as [|x rest IH].
  - intros [= <- <-]. repeat split.
  - destruct (is_dict x) eqn:Hdict.
    + destruct x as [| | | | | |fields]; try discriminate.
      rewrite scan_items_dict. destruct (has_id item_id (JObj fields)) eqn:Hid;
        [discriminate|].
      intros Hrest. destruct (IH Hrest) as (-> & -> & Hdicts & Hnone).
      cbn [forallb]. rewrite Hid, Hdicts, Hnone. repeat split.
    + rewrite (scan_items_not_a_dict _ _ _ _ Hdict). discriminate.
Qed.

Lemma scan_items_stops_at_non_dict (item_id : string) (pre post : list json) (x : json)
    (w : world) :
  forallb is_dict pre = true ->
  forallb (fun y => negb (has_id item_id y)) pre = true ->
  is_dict x = false ->
  scan_items item_id (pre ++ x :: post)%list w = (Raise (AttributeError x "get"), w).
Proof.
  intros Hdicts Hnone Hx. induction pre as [|y pre IH].
  - apply scan_items_not_a_dict. exact Hx.
  - cbn [forallb] in Hdicts, Hnone.
    apply andb_prop in Hdicts as [Hy Hdicts]. apply andb_prop in Hnone as [Hyid Hnone].
    destruct y as [| | | | | |fields]; try discriminate.
    cbn [app]. rewrite scan_items_dict.
    apply negb_true_iff in Hyid. rewrite Hyid. exact (IH Hdicts Hnone).
Qed.

Lemma scan_items_finds (item_id : string) (items : list json) (item : json) (w : world) :
  forallb is_dict items = true ->
  In item items ->
  has_id item_id item = true ->
  exists found : json,
    scan_items item_id items w = (Return found, w)
    /\ In found items /\ has_id item_id found = true.
Proof.
  induction items as [|x rest IH]; intros Hdicts Hin Hid; [destruct Hin|].
  cbn [forallb] in Hdicts. apply andb_prop in Hdicts as [Hx Hdicts].
  destruct x as [| | | | | |fields]; try discriminate.
  rewrite scan_items_dict. destruct (has_id item_id (JObj fields)) eqn:Hxid.
  - exists (JObj fields). split; [reflexivity|]. split; [left; reflexivity|exact Hxid].
  - destruct Hin as [<-|Hin]; [congruence|].
    destruct (IH Hdicts Hin Hid) as (found & Hscan & Hfound & Hfid).
    exists found. split; [exact Hscan|]. split; [right; exact Hfound|exact Hfid].
Qed.

Lemma iterate_raises (v : json) (e : exn) :
  iterate v = inl e -> e = TypeError_not_iterable v /\ is_HTTPException e = false.
Proof. destruct v; cbn; intros [= <-] || discriminate; split; reflexivity. Qed.

Lemma list_diary_raises_500 (w : world) (e : exn) :
  (list_diary w).1 = Raise e -> exists msg : string, e = HTTPException 500 msg.
Proof.
  unfold list_diary, try_except.
  destruct (list_diary_try w) as [[v|e0] w1]; [discriminate|].
  destruct (is_FileNotFoundError e0); [discriminate|].
  intros [= <-]. eexists. reflexivity.
Qed.

(** How [get_diary_item] ends, by what [list_diary] gives and by how the
    scan of it ends. *)
Lemma get_diary_item_cases (item_id : string) (w : world) :
  match (list_diary w).1 with
  | Raise e => (get_diary_item item_id w).1 = Raise e
  | Return v =>
      match iterate v with
      | inl e => (get_diary_item item_id w).1 = Raise (HTTPException 500 (str e))
      | inr elements =>
          match (scan_items item_id elements w).1 with
          | Return item => (get_diary_item item_id w).1 = Return item
          | Raise e =>
              (get_diary_item item_id w).1
              = Raise (if is_HTTPException e then e else HTTPException 500 (str e))
          end
      end
  end.
Proof.
  unfold get_diary_item, try_except, get_diary_item_try, bind.
  pose proof (read_only_list_diary w) as Hro.
  pose proof (list_diary_raises_only_HTTPException w) as Hhttp.
  destruct (list_diary w) as [[v|e] w1]; cbn in Hro, Hhttp |- *; subst w1.
  - destruct (iterate v) as [e|elements] eqn:Hiter; cbn [lift raise ret].
    + destruct (iterate_raises _ _ Hiter) as [_ ->]. reflexivity.
    + destruct (scan_items item_id elements w) as [[item|e] w2]; cbn; [reflexivity|].
      destruct (is_HTTPException e); reflexivity.
  - rewrite (Hhttp e eq_refl). reflexivity.
Qed.

Lemma test_database_returns (w : world) :
  exists report : list (string * json), (test_database w).1 = Return (JObj report).
Proof.
  unfold test_database, try_except, bind, import_database, os_getenv.
  destruct (import_db w) as [e|[db|]]; cbn [lift raise ret].
  - destruct (is_ImportError e); eexists; reflexivity.
  - destruct (list_collection_names db); eexists; reflexivity.
  - eexists; reflexivity.
Qed.

Lemma route_raises_404_or_500 (req : request) (w : world) (e : exn) :
  (route req w).1 = Raise e ->
  exists detail : string, e = HTTPException 404 detail \/ e = HTTPException 500 detail.
Proof.
  destruct req as [| | |item_id|]; cbn [route].
  - discriminate.
  - unfold get_profile, try_except.
    destruct (get_profile_try w) as [[v|e0] w1]; [discriminate|].
    destruct (is_FileNotFoundError e0); intros [= <-]; eauto.
  - intros Hraise. destruct (list_diary_raises_500 _ _ Hraise) as [msg ->]. eauto.
  - pose proof (get_diary_item_cases item_id w) as Hcases. intros Hraise.
    destruct (list_diary w).1 as [v|e0] eqn:Hlist.
    + destruct (iterate v) as [e1|elements]; [rewrite Hcases in Hraise|].
      { injection Hraise as <-. eauto. }
      destruct (scan_items item_id elements w).1 as [item|e1] eqn:Hscan;
        rewrite Hcases in Hraise; [discriminate|].
      injection Hraise as <-.
      destruct e1 as [msg|msg|status_code detail|cls msg]; cbn; eauto.
      destruct (scan_items_raises_HTTPException _ _ _ _ _ Hscan) as (-> & _). eauto.
    + rewrite Hcases in Hraise. injection Hraise as <-.
      destruct (list_diary_raises_500 _ _ Hlist) as [msg ->]. eauto.
  - destruct (test_database_returns w) as [report ->]. discriminate.
Qed.

(** *** Status codes *)

(** X7. Every response has status 200, 404 or 500.  One that is not a
    200 is either a ["detail"] text and nothing else, from an
    [HTTPException] of the handler, or the server's plain 500, and that
    one arises only from a returned value that fails the route's
    [response_model]: no exception other than [HTTPException] leaves a
    handler.  The diary list is never a 404. *)
Theorem statuses_are_200_404_500 (req : request) (w : world) :
  (status (serve req w).1 = 200
   \/ (status (serve req w).1 = 404 \/ status (serve req w).1 = 500)
      /\ (exists detail : string, body (serve req w).1 = JObj [("detail", JStr detail)])
   \/ (serve req w).1 = internal_server_error
      /\ (exists (v : json) (validate : json -> option json),
            (route req w).1 = Return v
            /\ response_model req = Some validate
            /\ validate v = None))
  /\ status (serve GET_api_diary w).1 <> 404.
Proof.
  split.
  - rewrite serve_outcome. destruct (route req w).1 as [v|e] eqn:Hroute.
    + destruct (response_model req) as [validate|] eqn:Hmodel; [|left; reflexivity].
      destruct (validate v) as [serialised|] eqn:Hvalid.
      * left. cbn. rewrite Hvalid. reflexivity.
      * right. right. cbn. rewrite Hvalid. split; [reflexivity|].
        exists v, validate. repeat split; assumption.
    + right. left. destruct (route_raises_404_or_500 _ _ _ Hroute) as [detail [-> | ->]];
        cbn; eauto.
  - rewrite serve_outcome. cbn [route response_model].
    destruct (list_diary w).1 as [v|e] eqn:Hlist.
    + cbn. destruct (as_List_DiaryItem v); discriminate.
    + destruct (list_diary_raises_500 _ _ Hlist) as [msg ->]. discriminate.
Qed.

(** X8. When [list_diary] raises, no diary item can be served: for every
    id, [GET /api/diary/{item_id}] gives the very error response that
    [GET /api/diary] gives, the [HTTPException] of [list_diary] passing
    through [get_diary_item] unchanged. *)
Theorem diary_item_repeats_list_error (w : world) (item_id : string) (e : exn) :
  (list_diary w).1 = Raise e ->
  (get_diary_item item_id w).1 = Raise e
  /\ (serve (GET_api_diary_item item_id) w).1 = (serve GET_api_diary w).1.
Proof.
  intros Hlist. rewrite !serve_outcome. cbn [route].
  pose proof (get_diary_item_cases item_id w) as Hcases.
  rewrite Hlist in Hcases |- *. rewrite Hcases. split; reflexivity.
Qed.

(** *** What a diary item response tells *)

(** X9. An item returned for an id is always one of the elements of what
    [list_diary] returned, and it is an object whose ["id"] is the
    requested string; nothing is made up and nothing of another id is
    ever returned, whatever the file holds. *)
Theorem returned_item_is_listed (w : world) (item_id : string) (item : json) :
  (get_diary_item item_id w).1 = Return item ->
  exists (v : json) (elements : list json),
    (list_diary w).1 = Return v
    /\ iterate v = inr elements
    /\ In item elements
    /\ has_id item_id item = true.
Proof.
  intros Hget. pose proof (get_diary_item_cases item_id w) as Hcases.
  destruct (list_diary w).1 as [v|e]; [|congruence].
  destruct (iterate v) as [e|elements] eqn:Hiter; [congruence|].
  destruct (scan_items item_id elements w).1 as [found|e] eqn:Hscan; [|congruence].
  rewrite Hcases in Hget. injection Hget as ->.
  destruct (scan_items_returns _ _ _ _ Hscan) as [Hin Hid].
  exists v, elements. split; [reflexivity|]. split; [exact Hiter|]. split; assumption.
Qed.

(** X10. A 404 for an id means the whole diary was scanned in vain:
    [list_diary] returned something iterable, every element of it is an
    object, and none has that id. *)
Theorem not_found_means_no_item (w : world) (item_id : string) :
  status (serve (GET_api_diary_item item_id) w).1 = 404 ->
  exists (v : json) (elements : list json),
    (list_diary w).1 = Return v
    /\ iterate v = inr elements
    /\ forallb is_dict elements = true
    /\ forallb (fun x => negb (has_id item_id x)) elements = true.
Proof.
  rewrite serve_outcome. cbn [route]. intros Hstatus.
  pose proof (get_diary_item_cases item_id w) as Hcases.
  destruct (list_diary w).1 as [v|e] eqn:Hlist.
  - destruct (iterate v) as [e|elements] eqn:Hiter;
      [rewrite Hcases in Hstatus; discriminate|].
    destruct (scan_items item_id elements w).1 as [found|e] eqn:Hscan;
      rewrite Hcases in Hstatus.
    { cbn in Hstatus. destruct (as_DiaryItem found); discriminate. }
    destruct e as [msg|msg|status_code detail|cls msg]; try discriminate.
    destruct (scan_items_raises_HTTPException _ _ _ _ _ Hscan) as (_ & _ & Hdicts & Hnone).
    exists v, elements. split; [reflexivity|]. split; [exact Hiter|]. split; assumption.
  - rewrite Hcases in Hstatus. destruct (list_diary_raises_500 _ _ Hlist) as [msg ->].
    discriminate.
Qed.

(** X11. An element that is not an object, met before any item with the
    requested id, ends the request in a 500 whose detail is the
    interpreter's complaint about [.get] on that element's type; items
    behind it are not looked at, even one with the requested id. *)
Theorem non_object_element_is_500 (w : world) (item_id : string) (v : json)
    (pre post : list json) (x : json) :
  (list_diary w).1 = Return v ->
  iterate v = inr (pre ++ x :: post)%list ->
  forallb is_dict pre = true ->
  forallb (fun y => negb (has_id item_id y)) pre = true ->
  is_dict x = false ->
  (serve (GET_api_diary_item item_id) w).1
  = {| status := 500;
       body := JObj [("detail",
                      JStr ("'" ++ type_name x ++ "' object has no attribute 'get'"))] |}.
Proof.
  intros Hlist Hiter Hdicts Hnone Hx. rewrite serve_outcome. cbn [route].
  pose proof (get_diary_item_cases item_id w) as Hcases.
  rewrite Hlist, Hiter, (scan_items_stops_at_non_dict _ _ _ _ _ Hdicts Hnone Hx) in Hcases.
  cbn in Hcases. rewrite Hcases. reflexivity.
Qed.

(** X12. When what [list_diary] returns cannot be iterated (a number, a
    boolean or null, as under an ["items"] key), every item request is a
    500 whose detail says that the value's type is not iterable. *)
Theorem non_iterable_diary_is_500 (w : world) (item_id : string) (v : json) :
  (list_diary w).1 = Return v ->
  is_list v = false -> is_dict v = false -> is_str v = false ->
  (serve (GET_api_diary_item item_id) w).1
  = {| status := 500;
       body := JObj [("detail",
                      JStr ("'" ++ type_name v ++ "' object is not iterable"))] |}.
Proof.
  intros Hlist Hnl Hnd Hns. rewrite serve_outcome. cbn [route].
  pose proof (get_diary_item_cases item_id w) as Hcases. rewrite Hlist in Hcases.
  destruct v; try discriminate; cbn in Hcases; rewrite Hcases; reflexivity.
Qed.

Lemma serve_returned_item (w : world) (item_id : string) (item : json) :
  (get_diary_item item_id w).1 = Return item ->
  DiaryItem item = true ->
  (serve (GET_api_diary_item item_id) w).1
  = {| status := 200; body := dump_DiaryItem item |}.
Proof.
  intros Hget Hshape. rewrite serve_outcome. cbn [route response_model].
  rewrite Hget. cbn. unfold as_DiaryItem. rewrite Hshape. reflexivity.
Qed.

(** The router on the paths under [/api/diary/]: the rest of the path is
    the id when it is one segment, and no route matches when it is
    not. *)
Lemma match_route_item (s : string) :
  match_route ("/api/diary/" ++ s)
  = if path_segment s then Some (GET_api_diary_item s) else None.
Proof. reflexivity. Qed.

(** X13. In a diary list of objects, an item that is the only one with
    its id is what [get_diary_item] returns for that id, wherever it
    stands in the list; when it has the [DiaryItem] shape the request is
    answered with status 200 and that item serialised through the
    model. *)
Theorem unique_id_is_served (w : world) (item_id : string) (items : list json)
    (item : json) :
  (list_diary w).1 = Return (JArr items) ->
  forallb is_dict items = true ->
  In item items ->
  has_id item_id item = true ->
  (forall x, In x items -> has_id item_id x = true -> x = item) ->
  (get_diary_item item_id w).1 = Return item
  /\ (DiaryItem item = true ->
      (serve (GET_api_diary_item item_id) w).1
      = {| status := 200; body := dump_DiaryItem item |}).
Proof.
  intros Hlist Hdicts Hin Hid Hunique.
  pose proof (get_diary_item_cases item_id w) as Hcases. rewrite Hlist in Hcases.
  destruct (scan_items_finds item_id items item w Hdicts Hin Hid)
    as (found & Hscan & Hfound & Hfid).
  cbn [iterate] in Hcases. rewrite Hscan in Hcases. cbn in Hcases.
  rewrite (Hunique found Hfound Hfid) in Hcases.
  split; [exact Hcases|]. apply serve_returned_item. exact Hcases.
Qed.

(** X14. In a diary list whose elements all have the [DiaryItem] shape,
    every listed item whose id is one path segment (not empty, no slash)
    can be asked for by that id: the path [/api/diary/<id>] is routed to
    [get_diary_item] with that id, and the answer is status 200 with the
    serialisation of a listed item of that id.  With an id that is empty
    or holds a slash the path belongs to none of the routes. *)
Theorem listed_item_is_reachable (w : world) (items : list json) (item : json)
    (item_id : string) :
  (list_diary w).1 = Return (JArr items) ->
  forallb DiaryItem items = true ->
  In item items ->
  field "id" item = Some (JStr item_id) ->
  (path_segment item_id = true ->
   match_route ("/api/diary/" ++ item_id) = Some (GET_api_diary_item item_id)
   /\ exists found : json,
       (serve (GET_api_diary_item item_id) w).1
       = {| status := 200; body := dump_DiaryItem found |}
       /\ In found items
       /\ has_id item_id found = true)
  /\ (path_segment item_id = false ->
      match_route ("/api/diary/" ++ item_id) = None).
Proof.
  intros Hlist Hshape Hin Hfield. rewrite match_route_item. split.
  - intros Hsegment. rewrite Hsegment. split; [reflexivity|].
    assert (Hitem : DiaryItem item = true).
    { rewrite forallb_forall in Hshape. apply Hshape. exact Hin. }
    destruct item as [| | | | | |fields]; try discriminate. cbn [field] in Hfield.
    assert (Hid : has_id item_id (JObj fields) = true).
    { unfold has_id, required. rewrite Hfield. cbn. apply String.eqb_refl. }
    destruct (scan_items_finds item_id items _ w (DiaryItems_are_dicts _ Hshape) Hin Hid)
      as (found & Hscan & Hfound & Hfid).
    exists found. split; [|split; assumption].
    apply serve_returned_item.
    + pose proof (get_diary_item_cases item_id w) as Hcases. rewrite Hlist in Hcases.
      cbn [iterate] in Hcases. rewrite Hscan in Hcases. exact Hcases.
    + rewrite forallb_forall in Hshape. apply Hshape. exact Hfound.
  - intros Hsegment. rewrite Hsegment. reflexivity.
Qed.

(** *** The diagnostic report, field by field *)

Lemma length_str_prefix (n : nat) (s : string) :
  String.length (str_prefix n s) = Nat.min n (String.length s).
Proof.
  unfold str_prefix. revert s.
  induction n as [|n IH]; intros [|c s]; cbn; try reflexivity.
  rewrite IH. reflexivity.
Qed.

Lemma str_prefix_is_prefix (n : nat) (s : string) :
  String.prefix (str_prefix n s) s = true.
Proof.
  unfold str_prefix. revert s.
  induction n as [|n IH]; intros [|c s]; cbn; try reflexivity.
  destruct (Ascii.ascii_dec c c); [apply IH|congruence].
Qed.

Lemma str_prefix_short (n : nat) (s : string) :
  (String.length s <= n)%nat -> str_prefix n s = s.
Proof.
  unfold str_prefix. revert s.
  induction n as [|n IH]; intros [|c s]; cbn; intros Hlen; try reflexivity; [lia|].
  rewrite IH by lia. reflexivity.
Qed.

Lemma test_database_settings (w : world) :
  field "database_url" (body (serve GET_test w).1)
  = Some (JStr (if truthy (environ w !! "DATABASE_URL") then "✅ Set" else "❌ Not Set"))
  /\ field "database_name" (body (serve GET_test w).1)
     = Some (JStr (if truthy (environ w !! "DATABASE_NAME") then "✅ Set" else "❌ Not Set")).
Proof.
  run_test_database.
  destruct (import_db w) as [e|[db|]]; cbn [lift raise ret].
  - destruct (is_ImportError e); split; reflexivity.
  - destruct (list_collection_names db); split; reflexivity.
  - split; reflexivity.
Qed.

(** X15. The ["database_url"] and ["database_name"] fields of the
    diagnostic report tell whether [DATABASE_URL] and [DATABASE_NAME] are
    set to a non-empty value, and nothing else: whatever the database
    module is and whatever name the database has, an unset or empty
    variable gives ["❌ Not Set"] and any other gives ["✅ Set"]. *)
Theorem settings_fields_report_environment (w : world) :
  (truthy (environ w !! "DATABASE_URL") = false <->
   (environ w !! "DATABASE_URL" = None \/ environ w !! "DATABASE_URL" = Some ""))
  /\ (truthy (environ w !! "DATABASE_URL") = false ->
      field "database_url" (body (serve GET_test w).1) = Some (JStr "❌ Not Set"))
  /\ (truthy (environ w !! "DATABASE_URL") = true ->
      field "database_url" (body (serve GET_test w).1) = Some (JStr "✅ Set"))
  /\ (truthy (environ w !! "DATABASE_NAME") = false ->
      field "database_name" (body (serve GET_test w).1) = Some (JStr "❌ Not Set"))
  /\ (truthy (environ w !! "DATABASE_NAME") = true ->
      field "database_name" (body (serve GET_test w).1) = Some (JStr "✅ Set")).
Proof.
  destruct (test_database_settings w) as [Hurl Hname].
  split; [|split; [|split; [|split]]].
  - destruct (environ w !! "DATABASE_URL") as [s|]; cbn.
    + rewrite negb_false_iff, String.eqb_eq. split.
      * intros ->. right. reflexivity.
      * intros [?|[= ->]]; [discriminate|reflexivity].
    + split; [left; reflexivity|reflexivity].
  - intros Hset. rewrite Hurl, Hset. reflexivity.
  - intros Hset. rewrite Hurl, Hset. reflexivity.
  - intros Hset. rewrite Hname, Hset. reflexivity.
  - intros Hset. rewrite Hname, Hset. reflexivity.
Qed.

(** X16. The diagnostic report always has the same six keys in the same
    order; ["backend"] is always ["✅ Running"], and
    ["connection_status"] is ["Connected"] exactly when the import gave a
    database object, ["Not Connected"] when it failed or gave [None]. *)
Theorem report_shape (w : world) :
  exists report : list (string * json),
    body (serve GET_test w).1 = JObj report
    /\ map fst report
       = ["backend"; "database"; "database_url"; "database_name"; "connection_status";
          "collections"]
    /\ dict_get "backend" report = Some (JStr "✅ Running")
    /\ dict_get "connection_status" report
       = Some (JStr match import_db w with
                    | inr (Some _) => "Connected"
                    | _ => "Not Connected"
                    end).
Proof.
  run_test_database.
  destruct (import_db w) as [e|[db|]]; cbn [lift raise ret].
  - destruct (is_ImportError e); eexists; repeat split.
  - destruct (list_collection_names db); eexists; repeat split.
  - eexists; repeat split.
Qed.

(** X17. When the database object lists its collections, the report
    says ["✅ Connected & Working"], and a database of at most 10
    collections has all of them in the report, in the order given. *)
Theorem working_database_report (w : world) (db : Database) (names : list string) :
  import_db w = inr (Some db) ->
  list_collection_names db = inr names ->
  field "database" (body (serve GET_test w).1) = Some (JStr "✅ Connected & Working")
  /\ ((length names <= 10)%nat ->
      field "collections" (body (serve GET_test w).1) = Some (JArr (map JStr names))).
Proof.
  intros Himport Hlist. run_test_database. rewrite Himport. cbn [lift raise ret].
  rewrite Hlist. cbn [lift raise ret]. split; [reflexivity|].
  intros Hlen. rewrite take_ge by lia. reflexivity.
Qed.

(** X18. An error text in the ["database"] field carries the beginning
    of [str(e)] and at most 50 characters of it: the whole message when it
    has no more than 50, a proper cut otherwise.  This holds for a failed
    import and for a failed collection listing alike. *)
Theorem error_text_is_cut_at_50 (w : world) (e : exn) :
  (import_db w = inl e /\ is_ImportError e = false
   \/ exists db, import_db w = inr (Some db) /\ list_collection_names db = inl e) ->
  exists marker cut : string,
    field "database" (body (serve GET_test w).1) = Some (JStr (marker ++ cut))
    /\ (marker = "❌ Error: " \/ marker = "⚠️  Connected but Error: ")
    /\ String.length cut = Nat.min 50 (String.length (str e))
    /\ String.prefix cut (str e) = true
    /\ ((String.length (str e) <= 50)%nat -> cut = str e).
Proof.
  intros [[Himport Hclass]|(db & Himport & Hlist)].
  - exists "❌ Error: ", (str_prefix 50 (str e)). split.
    { run_test_database. rewrite Himport. cbn [lift raise ret]. rewrite Hclass.
      reflexivity. }
    split; [left; reflexivity|].
    split; [apply length_str_prefix|]. split; [apply str_prefix_is_prefix|].
    apply str_prefix_short.
  - exists "⚠️  Connected but Error: ", (str_prefix 50 (str e)). split.
    { run_test_database. rewrite Himport. cbn [lift raise ret]. rewrite Hlist.
      reflexivity. }
    split; [right; reflexivity|].
    split; [apply length_str_prefix|]. split; [apply str_prefix_is_prefix|].
    apply str_prefix_short.
Qed.

End App.

(** ** The scenarios of the specification

    Each statement above, applied to the sample deployment. *)

Abbreviation sample_serve := (serve "/app" sample_json_load sample_str_HTTPException).

Lemma get_profile_serves_profile_fields_witness :
  files (world_of (Some ada_text) None) !! PROFILE_PATH "/app" = Some ada_text
  /\ sample_json_load ada_text = inr ada
  /\ Profile ada = true
  /\ get_profile "/app" sample_json_load sample_str_HTTPException
       (world_of (Some ada_text) None)
     = (Return ada, world_of (Some ada_text) None)
  /\ sample_serve GET_api_profile (world_of (Some ada_text) None)
     = ({| status := 200; body := ada_served |}, world_of (Some ada_text) None).
Proof.
  assert (Hfile : files (world_of (Some ada_text) None) !! PROFILE_PATH "/app"
                  = Some ada_text) by (vm_compute; reflexivity).
  assert (Hload : sample_json_load ada_text = inr ada) by (vm_compute; reflexivity).
  assert (Hshape : Profile ada = true) by reflexivity.
  split; [exact Hfile|]. split; [exact Hload|]. split; [exact Hshape|].
  destruct (get_profile_serves_profile_fields "/app" sample_json_load
              sample_str_HTTPException _ _ _ Hfile Hload Hshape) as (Hget & Hserve & _).
  split; [exact Hget|exact Hserve].
Defined.

(** The response is not the content of the file: on the profile of the
    specification's scenario the content has no [tagline], the response
    has one. *)
Lemma get_profile_adds_tagline :
  files (world_of (Some ada_text) None) !! PROFILE_PATH "/app" = Some ada_text
  /\ sample_json_load ada_text = inr ada
  /\ Profile ada = true
  /\ (sample_serve GET_api_profile (world_of (Some ada_text) None)).1
     <> {| status := 200; body := ada |}
  /\ field "tagline" ada = None
  /\ field "tagline" (body (sample_serve GET_api_profile (world_of (Some ada_text) None)).1)
     = Some JNull.
Proof.
  split; [vm_compute; reflexivity|]. split; [vm_compute; reflexivity|].
  split; [reflexivity|]. split; [vm_compute; discriminate|].
  split; vm_compute; reflexivity.
Qed.

Lemma get_profile_missing_file_witness :
  files (world_of None None) !! PROFILE_PATH "/app" = None
  /\ sample_serve GET_api_profile (world_of None None)
     = ({| status := 404;
           body := JObj [("detail",
                          JStr "profile.json not found. Add it to the backend root.")] |},
        world_of None None).
Proof.
  assert (Hfile : files (world_of None None) !! PROFILE_PATH "/app" = None)
    by (vm_compute; reflexivity).
  split; [exact Hfile|].
  exact (proj2 (proj2 (get_profile_missing_file "/app" sample_json_load
                         sample_str_HTTPException _ Hfile))).
Defined.

Lemma list_diary_serves_both_shapes_witness :
  sample_serve GET_api_diary (world_of None (Some day1_text))
  = ({| status := 200; body := JArr [day1_served] |}, world_of None (Some day1_text))
  /\ sample_serve GET_api_diary (world_of None (Some wrapped_text))
     = ({| status := 200; body := JArr [day1_served] |}, world_of None (Some wrapped_text))
  /\ list_diary "/app" sample_json_load sample_str_HTTPException
       (world_of None (Some wrapped_text))
     = (Return (JArr [day1]), world_of None (Some wrapped_text)).
Proof.
  assert (Hbare : files (world_of None (Some day1_text)) !! DIARY_PATH "/app"
                  = Some day1_text) by (vm_compute; reflexivity).
  assert (Hwrapped : files (world_of None (Some wrapped_text)) !! DIARY_PATH "/app"
                     = Some wrapped_text) by (vm_compute; reflexivity).
  split; [|split].
  - destruct (list_diary_serves_both_shapes "/app" sample_json_load
                sample_str_HTTPException _ _ Hbare) as [Hlist _].
    destruct (Hlist [day1]) as (_ & Hserve & _); [vm_compute; reflexivity|].
    apply Hserve. reflexivity.
  - destruct (list_diary_serves_both_shapes "/app" sample_json_load
                sample_str_HTTPException _ _ Hwrapped) as [_ Hitems].
    destruct (Hitems [("items", JArr [day1])] (JArr [day1])) as (_ & Hserve & _);
      [vm_compute; reflexivity|reflexivity|].
    apply (Hserve [day1]); reflexivity.
  - destruct (list_diary_serves_both_shapes "/app" sample_json_load
                sample_str_HTTPException _ _ Hwrapped) as [_ Hitems].
    destruct (Hitems [("items", JArr [day1])] (JArr [day1])) as (Hlist & _);
      [vm_compute; reflexivity|reflexivity|].
    exact Hlist.
Defined.

(** The response is not the array of the file: on the diary of the
    specification's scenario the item is sent with two more fields, and
    for an ["items"] key that holds a number there is no 200 at all. *)
Lemma list_diary_response_is_not_the_file :
  sample_json_load day1_text = inr (JArr [day1])
  /\ (sample_serve GET_api_diary (world_of None (Some day1_text))).1
     <> {| status := 200; body := JArr [day1] |}
  /\ edge_json_load items_5_text = inr (JObj [("items", JInt 5)])
  /\ (serve "/app" edge_json_load sample_str_HTTPException GET_api_diary
        (world_of None (Some items_5_text))).1
     <> {| status := 200; body := JInt 5 |}.
Proof.
  split; [vm_compute; reflexivity|]. split; [vm_compute; discriminate|].
  split; [vm_compute; reflexivity|]. vm_compute; discriminate.
Qed.

Lemma list_diary_missing_file_witness :
  files (world_of (Some ada_text) None) !! DIARY_PATH "/app" = None
  /\ sample_serve GET_api_diary (world_of (Some ada_text) None)
     = ({| status := 200; body := JArr [] |}, world_of (Some ada_text) None).
Proof.
  assert (Hfile : files (world_of (Some ada_text) None) !! DIARY_PATH "/app" = None)
    by (vm_compute; reflexivity).
  split; [exact Hfile|].
  exact (proj2 (list_diary_missing_file "/app" sample_json_load sample_str_HTTPException
                  _ Hfile)).
Defined.

Lemma list_diary_other_shape_witness :
  sample_json_load "7" = inr (JInt 7)
  /\ sample_serve GET_api_diary (world_of None (Some "7"))
     = ({| status := 200; body := JArr [] |}, world_of None (Some "7")).
Proof.
  assert (Hfile : files (world_of None (Some "7")) !! DIARY_PATH "/app" = Some "7")
    by (vm_compute; reflexivity).
  assert (Hload : sample_json_load "7" = inr (JInt 7)) by (vm_compute; reflexivity).
  split; [exact Hload|].
  refine (proj2 (list_diary_other_shape "/app" sample_json_load sample_str_HTTPException
                   _ _ _ Hfile Hload eq_refl _)).
  intros fields Hobj. discriminate Hobj.
Defined.

Lemma get_diary_item_serves_first_match_witness :
  sample_serve (GET_api_diary_item "1") (world_of None (Some day1_text))
  = ({| status := 200; body := day1_served |}, world_of None (Some day1_text))
  /\ get_diary_item "/app" sample_json_load sample_str_HTTPException "1"
       (world_of None (Some day1_text))
     = (Return day1, world_of None (Some day1_text))
  /\ sample_serve (GET_api_diary_item "2") (world_of None (Some day1_text))
     = ({| status := 404; body := JObj [("detail", JStr "Diary item not found")] |},
        world_of None (Some day1_text))
  /\ sample_serve (GET_api_diary_item "1") (world_of None None)
     = ({| status := 404; body := JObj [("detail", JStr "Diary item not found")] |},
        world_of None None).
Proof.
  split; [|split; [|split]].
  - destruct (get_diary_item_serves_first_match "/app" sample_json_load
                sample_str_HTTPException
                (world_of None (Some day1_text)) (world_of None (Some day1_text)) "1")
      as (Hfound & _ & _).
    destruct (Hfound [] [] day1) as [_ Hserve];
      [vm_compute; reflexivity|reflexivity|reflexivity|reflexivity|].
    exact Hserve.
  - destruct (get_diary_item_serves_first_match "/app" sample_json_load
                sample_str_HTTPException
                (world_of None (Some day1_text)) (world_of None (Some day1_text)) "1")
      as (Hfound & _ & _).
    destruct (Hfound [] [] day1) as [Hget _];
      [vm_compute; reflexivity|reflexivity|reflexivity|reflexivity|].
    exact Hget.
  - destruct (get_diary_item_serves_first_match "/app" sample_json_load
                sample_str_HTTPException
                (world_of None (Some day1_text)) (world_of None (Some day1_text)) "2")
      as (_ & Hnone & _).
    apply (Hnone [day1]);
      [vm_compute; reflexivity | apply DiaryItems_are_dicts; reflexivity | reflexivity].
  - destruct (get_diary_item_serves_first_match "/app" sample_json_load
                sample_str_HTTPException
                (world_of None None) (world_of None None) "1")
      as (_ & _ & Hmissing).
    apply Hmissing. vm_compute; reflexivity.
Defined.

(** The response is not the item of the file: on the diary of the
    specification's scenario the item has no [summary], the response has
    one. *)
Lemma get_diary_item_response_is_not_the_item :
  list_diary "/app" sample_json_load sample_str_HTTPException
    (world_of None (Some day1_text))
  = (Return (JArr [day1]), world_of None (Some day1_text))
  /\ has_id "1" day1 = true
  /\ (sample_serve (GET_api_diary_item "1") (world_of None (Some day1_text))).1
     <> {| status := 200; body := day1 |}
  /\ field "summary" day1 = None
  /\ field "summary"
       (body (sample_serve (GET_api_diary_item "1") (world_of None (Some day1_text))).1)
     = Some JNull.
Proof.
  split; [vm_compute; reflexivity|]. split; [reflexivity|].
  split; [vm_compute; discriminate|]. split; vm_compute; reflexivity.
Qed.

Lemma unexpected_exception_is_500_witness :
  sample_serve GET_api_profile (world_of (Some "oops") None)
  = ({| status := 500;
        body := JObj [("detail", JStr "Expecting value: line 1 column 1 (char 0)")] |},
     world_of (Some "oops") None)
  /\ sample_serve GET_api_diary (world_of None (Some "oops"))
     = ({| status := 500;
           body := JObj [("detail", JStr "Expecting value: line 1 column 1 (char 0)")] |},
        world_of None (Some "oops"))
  /\ sample_serve (GET_api_diary_item "1") (world_of None (Some "[7]"))
     = ({| status := 500;
           body := JObj [("detail", JStr "'int' object has no attribute 'get'")] |},
        world_of None (Some "[7]"))
  /\ get_diary_item "/app" sample_json_load sample_str_HTTPException "1"
       (world_of None (Some "oops"))
     = (Raise (HTTPException 500 "Expecting value: line 1 column 1 (char 0)"),
        world_of None (Some "oops")).
Proof.
  split; [|split; [|split]].
  - destruct (unexpected_exception_is_500 "/app" sample_json_load sample_str_HTTPException
                (world_of (Some "oops") None) (world_of (Some "oops") None)
                (Exception_ "JSONDecodeError" "Expecting value: line 1 column 1 (char 0)")
                "1" eq_refl eq_refl) as (Hprofile & _).
    apply Hprofile. vm_compute; reflexivity.
  - destruct (unexpected_exception_is_500 "/app" sample_json_load sample_str_HTTPException
                (world_of None (Some "oops")) (world_of None (Some "oops"))
                (Exception_ "JSONDecodeError" "Expecting value: line 1 column 1 (char 0)")
                "1" eq_refl eq_refl) as (_ & Hdiary & _).
    apply Hdiary. vm_compute; reflexivity.
  - destruct (unexpected_exception_is_500 "/app" sample_json_load sample_str_HTTPException
                (world_of None (Some "[7]")) (world_of None (Some "[7]"))
                (AttributeError (JInt 7) "get")
                "1" eq_refl eq_refl) as (_ & _ & Hitem & _).
    apply Hitem. vm_compute; reflexivity.
  - destruct (unexpected_exception_is_500 "/app" sample_json_load sample_str_HTTPException
                (world_of None (Some "oops")) (world_of None (Some "oops"))
                (Exception_ "JSONDecodeError" "Expecting value: line 1 column 1 (char 0)")
                "1" eq_refl eq_refl) as (_ & _ & _ & Hreraise).
    apply (Hreraise 500 "Expecting value: line 1 column 1 (char 0)").
    vm_compute; reflexivity.
Defined.

Lemma test_database_never_fails_witness :
  field "database" (body (sample_serve GET_test (world_of None None)).1)
  = Some (JStr "❌ Database module not found (run enable-database first)")
  /\ field "database"
       (body (sample_serve GET_test
                (world_with_database (inl (Exception_ "OperationFailure" "not authorized")))).1)
     = Some (JStr "⚠️  Connected but Error: not authorized").
Proof.
  split.
  - destruct (test_database_never_fails "/app" sample_json_load sample_str_HTTPException
                (world_of None None)) as (_ & Himport & _).
    exact (Himport (ImportError "No module named 'database'") eq_refl).
  - destruct (test_database_never_fails "/app" sample_json_load sample_str_HTTPException
                (world_with_database (inl (Exception_ "OperationFailure" "not authorized"))))
      as (_ & _ & _ & Hlisting).
    exact (Hlisting _ (Exception_ "OperationFailure" "not authorized") eq_refl eq_refl).
Defined.

Lemma test_database_collections_bound_witness :
  exists names : list json,
    field "collections"
      (body (sample_serve GET_test (world_with_database (inr twelve_names))).1)
    = Some (JArr names)
    /\ (length names <= 10)%nat
    /\ names = map JStr (take 10 twelve_names).
Proof.
  destruct (test_database_collections_bound "/app" sample_json_load
              sample_str_HTTPException (world_with_database (inr twelve_names)))
    as (names & Hfield & Hbound & Hfirst).
  exists names. split; [exact Hfield|]. split; [exact Hbound|].
  exact (Hfirst _ twelve_names eq_refl eq_refl).
Defined.

(** ** The further properties on the sample deployment *)

Abbreviation edge_serve := (serve "/app" edge_json_load sample_str_HTTPException).

Lemma profile_depends_on_profile_json_witness :
  files (world_of (Some ada_text) None) !! PROFILE_PATH "/app"
  = files (world_of (Some ada_text) (Some day1_text)) !! PROFILE_PATH "/app"
  /\ (sample_serve GET_api_profile (world_of (Some ada_text) None)).1
     = (sample_serve GET_api_profile (world_of (Some ada_text) (Some day1_text))).1.
Proof.
  assert (Hsame : files (world_of (Some ada_text) None) !! PROFILE_PATH "/app"
                  = files (world_of (Some ada_text) (Some day1_text)) !! PROFILE_PATH "/app")
    by (vm_compute; reflexivity).
  split; [exact Hsame|].
  exact (profile_depends_on_profile_json "/app" sample_json_load sample_str_HTTPException
           _ _ Hsame).
Defined.

Lemma diary_depends_on_diary_json_witness :
  files (world_of None (Some day1_text)) !! DIARY_PATH "/app"
  = files (world_of (Some ada_text) (Some day1_text)) !! DIARY_PATH "/app"
  /\ (sample_serve (GET_api_diary_item "1") (world_of None (Some day1_text))).1
     = (sample_serve (GET_api_diary_item "1") (world_of (Some ada_text) (Some day1_text))).1.
Proof.
  assert (Hsame : files (world_of None (Some day1_text)) !! DIARY_PATH "/app"
                  = files (world_of (Some ada_text) (Some day1_text)) !! DIARY_PATH "/app")
    by (vm_compute; reflexivity).
  split; [exact Hsame|].
  exact (proj2 (diary_depends_on_diary_json "/app" sample_json_load
                  sample_str_HTTPException _ _ "1" Hsame)).
Defined.

Lemma diagnostics_ignore_files_witness :
  same_database_settings (world_of None None) (world_of (Some ada_text) (Some "7"))
  /\ (sample_serve GET_test (world_of None None)).1
     = (sample_serve GET_test (world_of (Some ada_text) (Some "7"))).1.
Proof.
  assert (Hsame : same_database_settings (world_of None None)
                    (world_of (Some ada_text) (Some "7")))
    by (split; [|split]; reflexivity).
  split; [exact Hsame|].
  exact (proj1 (diagnostics_ignore_files "/app" sample_json_load sample_str_HTTPException
                  _ _) Hsame).
Defined.

Lemma edits_are_served_at_once_witness :
  sample_json_load ada_text = inr ada
  /\ (get_profile "/app" sample_json_load sample_str_HTTPException
        (edit_file (PROFILE_PATH "/app") (Some ada_text) (world_of None None))).1
     = Return ada
  /\ (sample_serve GET_api_profile
        (edit_file (PROFILE_PATH "/app") (Some ada_text) (world_of None None))).1
     = {| status := 200; body := ada_served |}.
Proof.
  assert (Hload : sample_json_load ada_text = inr ada) by (vm_compute; reflexivity).
  split; [exact Hload|].
  destruct (edits_are_served_at_once "/app" sample_json_load sample_str_HTTPException
              (world_of None None) ada_text ada Hload) as (Hget & Hserve & _).
  split; [exact Hget|]. apply Hserve. reflexivity.
Defined.

Lemma diary_item_repeats_list_error_witness :
  (list_diary "/app" sample_json_load sample_str_HTTPException
     (world_of None (Some "oops"))).1
  = Raise (HTTPException 500 "Expecting value: line 1 column 1 (char 0)")
  /\ (sample_serve (GET_api_diary_item "1") (world_of None (Some "oops"))).1
     = (sample_serve GET_api_diary (world_of None (Some "oops"))).1.
Proof.
  assert (Hlist : (list_diary "/app" sample_json_load sample_str_HTTPException
                     (world_of None (Some "oops"))).1
                  = Raise (HTTPException 500 "Expecting value: line 1 column 1 (char 0)"))
    by (vm_compute; reflexivity).
  split; [exact Hlist|].
  exact (proj2 (diary_item_repeats_list_error "/app" sample_json_load
                  sample_str_HTTPException _ "1" _ Hlist)).
Defined.

Lemma returned_item_is_listed_witness :
  exists (v : json) (elements : list json),
    (list_diary "/app" sample_json_load sample_str_HTTPException
       (world_of None (Some wrapped_text))).1 = Return v
    /\ iterate v = inr elements
    /\ In day1 elements
    /\ has_id "1" day1 = true.
Proof.
  apply (returned_item_is_listed "/app" sample_json_load sample_str_HTTPException
           (world_of None (Some wrapped_text)) "1" day1).
  vm_compute; reflexivity.
Defined.

Lemma not_found_means_no_item_witness :
  exists (v : json) (elements : list json),
    (list_diary "/app" sample_json_load sample_str_HTTPException
       (world_of None (Some day1_text))).1 = Return v
    /\ iterate v = inr elements
    /\ forallb is_dict elements = true
    /\ forallb (fun x => negb (has_id "2" x)) elements = true.
Proof.
  apply (not_found_means_no_item "/app" sample_json_load sample_str_HTTPException
           (world_of None (Some day1_text)) "2").
  vm_compute; reflexivity.
Defined.

Lemma non_object_element_is_500_witness :
  (edge_serve (GET_api_diary_item "1") (world_of None (Some note_first_text))).1
  = {| status := 500;
       body := JObj [("detail", JStr "'str' object has no attribute 'get'")] |}.
Proof.
  apply (non_object_element_is_500 "/app" edge_json_load sample_str_HTTPException
           (world_of None (Some note_first_text)) "1"
           (JArr [JStr "note"; JObj [("id", JStr "1")]])
           [] [JObj [("id", JStr "1")]] (JStr "note")); vm_compute; reflexivity.
Defined.

Lemma non_iterable_diary_is_500_witness :
  (list_diary "/app" edge_json_load sample_str_HTTPException
     (world_of None (Some items_5_text))).1
  = Return (JInt 5)
  /\ (edge_serve (GET_api_diary_item "1") (world_of None (Some items_5_text))).1
     = {| status := 500; body := JObj [("detail", JStr "'int' object is not iterable")] |}.
Proof.
  assert (Hlist : (list_diary "/app" edge_json_load sample_str_HTTPException
                     (world_of None (Some items_5_text))).1
                  = Return (JInt 5)) by (vm_compute; reflexivity).
  split; [exact Hlist|].
  exact (non_iterable_diary_is_500 "/app" edge_json_load sample_str_HTTPException
           (world_of None (Some items_5_text)) "1" (JInt 5) Hlist eq_refl eq_refl eq_refl).
Defined.

Lemma unique_id_is_served_witness :
  (get_diary_item "/app" edge_json_load sample_str_HTTPException "2"
     (world_of None (Some two_days_text))).1
  = Return day2
  /\ (edge_serve (GET_api_diary_item "2") (world_of None (Some two_days_text))).1
     = {| status := 200; body := day2_served |}.
Proof.
  destruct (unique_id_is_served "/app" edge_json_load sample_str_HTTPException
              (world_of None (Some two_days_text)) "2" [day1; day2] day2)
    as [Hget Hserve].
  - vm_compute; reflexivity.
  - reflexivity.
  - right. left. reflexivity.
  - reflexivity.
  - intros x [<-|[<-|[]]]; [discriminate|reflexivity].
  - split; [exact Hget|]. apply Hserve. reflexivity.
Defined.

Lemma listed_item_is_reachable_witness :
  match_route "/api/diary/2" = Some (GET_api_diary_item "2")
  /\ exists found : json,
      (edge_serve (GET_api_diary_item "2") (world_of None (Some two_days_text))).1
      = {| status := 200; body := dump_DiaryItem found |}
      /\ In found [day1; day2]
      /\ has_id "2" found = true.
Proof.
  destruct (listed_item_is_reachable "/app" edge_json_load sample_str_HTTPException
              (world_of None (Some two_days_text)) [day1; day2] day2 "2")
    as [Hreachable _].
  - vm_compute; reflexivity.
  - reflexivity.
  - right. left. reflexivity.
  - reflexivity.
  - apply Hreachable. reflexivity.
Defined.

Lemma settings_fields_report_environment_witness :
  field "database_url"
    (body (sample_serve GET_test (world_with_database (inr twelve_names))).1)
  = Some (JStr "✅ Set")
  /\ field "database_name"
       (body (sample_serve GET_test (world_with_database (inr twelve_names))).1)
     = Some (JStr "❌ Not Set").
Proof.
  destruct (settings_fields_report_environment "/app" sample_json_load
              sample_str_HTTPException (world_with_database (inr twelve_names)))
    as (_ & _ & Hurl & Hname & _).
  split; [apply Hurl|apply Hname]; vm_compute; reflexivity.
Defined.

Lemma working_database_report_witness :
  field "database"
    (body (sample_serve GET_test (world_with_database (inr ["posts"; "users"]))).1)
  = Some (JStr "✅ Connected & Working")
  /\ field "collections"
       (body (sample_serve GET_test (world_with_database (inr ["posts"; "users"]))).1)
     = Some (JArr [JStr "posts"; JStr "users"]).
Proof.
  destruct (working_database_report "/app" sample_json_load sample_str_HTTPException
              (world_with_database (inr ["posts"; "users"])) _ ["posts"; "users"]
              eq_refl eq_refl) as [Hworking Hall].
  split; [exact Hworking|]. apply Hall. cbn. lia.
Defined.

Lemma error_text_is_cut_at_50_witness :
  exists marker cut : string,
    field "database"
      (body (sample_serve GET_test
               (world_with_database (inl (Exception_ "OperationFailure" long_message)))).1)
    = Some (JStr (marker ++ cut))
    /\ (marker = "❌ Error: " \/ marker = "⚠️  Connected but Error: ")
    /\ String.length cut = 50%nat
    /\ String.prefix cut long_message = true.
Proof.
  destruct (error_text_is_cut_at_50 "/app" sample_json_load sample_str_HTTPException
              (world_with_database (inl (Exception_ "OperationFailure" long_message)))
              (Exception_ "OperationFailure" long_message))
    as (marker & cut & Hfield & Hmarker & Hlength & Hprefix & _).
  { right. eexists. split; reflexivity. }
  exists marker, cut. split; [exact Hfield|]. split; [exact Hmarker|].
  split; [exact Hlength|exact Hprefix].
Defined.
